(** * check-gpu-node: GPU node classification, aggregation and Slack delivery

    A shallow embedding of [check-gpu-node.py].  The Kubernetes client
    objects become records whose optional attributes are [option]s, Python
    dictionaries that are only read become [gmap]s, the dictionary that the
    script builds (and later renders in insertion order) is an association
    list, and the webhook call of [send_slack_message] is run against a
    scripted webhook while the POSTs, log lines and sleeps it performs are
    collected in a trace.  The message formatting, the text table, the
    notification decision, [one_shot] and [main] are computations that
    return or raise and collect what they write. *)

From Stdlib Require Import ZArith String Ascii List Lia Bool.
From stdpp Require Import base option list gmap strings pretty.
Import ListNotations.

Local Open Scope string_scope.
Local Open Scope list_scope.
Local Open Scope Z_scope.

(* ===================================================================== *)
(** ** Python builtins used by the script *)
(* ===================================================================== *)

Module Py.

(** [bool(s)] for a string: only the empty string is falsy. *)
Definition truthy_str (s : string) : bool :=
  match s with
  | EmptyString => false
  | String _ _ => true
  end.

(** [bool(l)] for a list: only the empty list is falsy. *)
Definition truthy_list {A} (l : list A) : bool :=
  match l with
  | [] => false
  | _ :: _ => true
  end.

(** [x or []] for an optional list: [None] and the empty list both give
    the empty list. *)
Definition or_list {A} (o : option (list A)) : list A :=
  match o with
  | Some l => l
  | None => []
  end.

(** [sub in s] for strings. *)
Fixpoint contains (sub s : string) : bool :=
  String.prefix sub s ||
  match s with
  | EmptyString => false
  | String _ s' => contains sub s'
  end.

(** ASCII whitespace skipped by [int()] around the literal. *)
Definition is_space (c : ascii) : bool :=
  let n := nat_of_ascii c in
  ((9 <=? n)%nat && (n <=? 13)%nat) || (n =? 32)%nat.

Definition digit_val (c : ascii) : option Z :=
  let n := nat_of_ascii c in
  if ((48 <=? n)%nat && (n <=? 57)%nat) then Some (Z.of_nat (n - 48)) else None.

Fixpoint all_space (s : string) : bool :=
  match s with
  | EmptyString => true
  | String c s' => is_space c && all_space s'
  end.

Fixpoint lstrip (s : string) : string :=
  match s with
  | EmptyString => EmptyString
  | String c s' => if is_space c then lstrip s' else s
  end.

(** Digits of a decimal literal, single underscores allowed between two
    digits, followed by whitespace only.  [prev] tells whether the
    previous character was a digit. *)
Fixpoint int_digits (acc : Z) (prev : bool) (s : string) : option Z :=
  match s with
  | EmptyString => if prev then Some acc else None
  | String c s' =>
      match digit_val c with
      | Some d => int_digits (10 * acc + d) true s'
      | None =>
          if prev then
            if Ascii.eqb c "_" then int_digits acc false s'
            else if all_space s then Some acc else None
          else None
      end
  end.

(** [int(s)] on an ASCII string, base 10: [None] stands for the
    [ValueError] raised on a malformed literal. *)
Definition int (s : string) : option Z :=
  match lstrip s with
  | String "+" s' => int_digits 0 false s'
  | String "-" s' => Z.opp <$> int_digits 0 false s'
  | s' => int_digits 0 false s'
  end.

(** [sum(xs)]. *)
Definition sum (xs : list Z) : Z := foldl Z.add 0 xs.

(** [range(n)]. *)
Definition range (n : Z) : list nat := seq 0 (Z.to_nat n).

(** A dictionary in insertion order: [d[k] = v] overwrites in place when
    the key is present and appends otherwise. *)
Fixpoint dict_set {V} (d : list (string * V)) (k : string) (v : V)
  : list (string * V) :=
  match d with
  | [] => [(k, v)]
  | (k', v') :: d' =>
      if String.eqb k' k then (k', v) :: d' else (k', v') :: dict_set d' k v
  end.

(** [d.values()]. *)
Definition values {V} (d : list (string * V)) : list V := map snd d.

(** [d.keys()]. *)
Definition keys {V} (d : list (string * V)) : list string := map fst d.

End Py.

(* ===================================================================== *)
(** ** Kubernetes client objects *)
(* ===================================================================== *)

Record V1NodeCondition := {
  cond_type : string;
  cond_status : string;
}.

(** An element of [status.conditions]: the script looks only at elements
    that pass [isinstance(cond, V1NodeCondition)]. *)
Inductive condition_item :=
| IsCondition (cond : V1NodeCondition)
| NotCondition.

Record V1NodeStatus := {
  conditions : option (list condition_item);
  capacity : option (gmap string string);
}.

Record V1ObjectMeta := {
  meta_name : option string;
  meta_labels : option (gmap string string);
}.

Record V1Taint := {
  taint_key : string;
  taint_value : option string;
  taint_effect : string;
}.

Record V1NodeSpec := {
  spec_taints : option (list V1Taint);
}.

Record V1Node := {
  metadata : option V1ObjectMeta;
  spec : option V1NodeSpec;
  status : option V1NodeStatus;
}.

(** The dictionary returned by [extract_node_info]. *)
Record NodeInfo := {
  name : option string;
  ready : bool;
  gpus : Z;
  gpu_breakdown : list (string * Z);
  labels : gmap string string;
  taints : list V1Taint;
}.

(* ===================================================================== *)
(** ** Node classifier *)
(* ===================================================================== *)

Definition GPU_RESOURCE_KEYS : list string :=
  [ "nvidia.com/gpu"; "amd.com/gpu"; "gpu.intel.com/i915"; "intel.com/gpu" ].

(** The test of the loop body of [is_ready]. *)
Definition is_ready_condition (item : condition_item) : bool :=
  match item with
  | IsCondition cond =>
      String.eqb (cond_type cond) "Ready" && String.eqb (cond_status cond) "True"
  | NotCondition => false
  end.

(** The [for cond in node.status.conditions] loop: return [True] at the
    first hit, [False] when the list is exhausted. *)
Fixpoint is_ready_scan (conds : list condition_item) : bool :=
  match conds with
  | [] => false
  | item :: rest => if is_ready_condition item then true else is_ready_scan rest
  end.

Definition is_ready (node : V1Node) : bool :=
  match status node with
  | None => false
  | Some st =>
      match conditions st with
      | None => false
      | Some conds =>
          if negb (Py.truthy_list conds) then false else is_ready_scan conds
      end
  end.

(** One iteration of the [for key in GPU_RESOURCE_KEYS] loop. *)
Definition gpu_capacity_step (cap : gmap string string)
    (caps : list (string * Z)) (key : string) : list (string * Z) :=
  match cap !! key with
  | None => caps
  | Some val =>
      if negb (Py.truthy_str val) then caps
      else match Py.int val with
           | Some n => Py.dict_set caps key n
           | None => caps
           end
  end.

Definition gpu_capacity (node : V1Node) : list (string * Z) :=
  match status node with
  | None => []
  | Some st =>
      match capacity st with
      | None => []
      | Some cap =>
          if bool_decide (cap = ∅) then []
          else foldl (gpu_capacity_step cap) [] GPU_RESOURCE_KEYS
      end
  end.

Definition extract_node_info (node : V1Node) : NodeInfo :=
  let caps := gpu_capacity node in
  let total_gpus := if Py.truthy_list caps then Py.sum (Py.values caps) else 0 in
  {| name := match metadata node with
             | Some m => meta_name m
             | None => Some ""
             end;
     ready := is_ready node;
     gpus := total_gpus;
     gpu_breakdown := caps;
     labels := match metadata node with
               | Some m => match meta_labels m with
                           | Some ls => if bool_decide (ls = ∅) then ∅ else ls
                           | None => ∅
                           end
               | None => ∅
               end;
     taints := match spec node with
               | Some sp => Py.or_list (spec_taints sp)
               | None => []
               end |}.

(** *** Notions used to state the classifier's properties *)

(** What a Ready condition with status "True" is. *)
Definition ready_true (cond : V1NodeCondition) : Prop :=
  cond_type cond = "Ready" /\ cond_status cond = "True".

(** The breakdown entry a recognized key gives rise to, if any: the key
    must be present with a non-empty value that [int] accepts. *)
Definition parsed_entry (cap : gmap string string) (key : string)
  : option (string * Z) :=
  match cap !! key with
  | Some val => if Py.truthy_str val then pair key <$> Py.int val else None
  | None => None
  end.

(* ===================================================================== *)
(** ** Cluster aggregator and exit status *)
(* ===================================================================== *)

(** One iteration of the [for n in nodes] loop of [list_gpu_nodes], on the
    pair of lists it appends to. *)
Definition list_gpu_nodes_step (acc : list NodeInfo * list NodeInfo) (n : V1Node)
  : list NodeInfo * list NodeInfo :=
  let '(gpu_nodes, ready_gpu_nodes) := acc in
  let info := extract_node_info n in
  if 0 <? gpus info then
    if ready info then (gpu_nodes ++ [info], ready_gpu_nodes ++ [info])
    else (gpu_nodes ++ [info], ready_gpu_nodes)
  else (gpu_nodes, ready_gpu_nodes).

(** [list_gpu_nodes], on the [items] of the listing answered by the API
    ([None] or an empty list both give no nodes). *)
Definition list_gpu_nodes (items : option (list V1Node))
  : list NodeInfo * list NodeInfo :=
  let nodes := Py.or_list items in
  foldl list_gpu_nodes_step ([], []) nodes.

(** The three closing [return]s of [one_shot]. *)
Definition one_shot_status (gpu_nodes ready_gpu_nodes : list NodeInfo) : Z :=
  if Py.truthy_list ready_gpu_nodes then 0
  else if Py.truthy_list gpu_nodes && negb (Py.truthy_list ready_gpu_nodes) then 3
  else 2.

(** *** Notions used to state the aggregator's properties *)

(** The test [info["gpus"] > 0]. *)
Definition is_gpu_node (info : NodeInfo) : bool := 0 <? gpus info.

(** The exit status as the specification words it, from the two counts:
    0 when at least one GPU node is ready, 3 when there are GPU nodes and
    none is ready, 2 when there is no GPU node. *)
Definition status_of_counts (n_gpu n_ready : nat) : Z :=
  if (1 <=? n_ready)%nat then 0
  else if (1 <=? n_gpu)%nat then 3
  else 2.

(** *** Example nodes *)

Definition node_with (conds : option (list condition_item))
    (cap : option (gmap string string)) : V1Node :=
  {| metadata := Some {| meta_name := Some "worker"; meta_labels := None |};
     spec := None;
     status := Some {| conditions := conds; capacity := cap |} |}.

Definition ready_condition (st : string) : condition_item :=
  IsCondition {| cond_type := "Ready"; cond_status := st |}.

(** A node whose device plugin reports no GPU left: capacity "0". *)
Definition node_zero_capacity : V1Node :=
  node_with (Some [ready_condition "True"]) (Some {[ "nvidia.com/gpu" := "0" ]}).

(** A node with two NVIDIA GPUs and an unparsable AMD quantity. *)
Definition node_two_gpus : V1Node :=
  node_with (Some [ready_condition "True"])
    (Some (<[ "amd.com/gpu" := "abc" ]> {[ "nvidia.com/gpu" := "2" ]})).

(* ===================================================================== *)
(** ** Slack delivery *)
(* ===================================================================== *)

Module Slack.

(** What one [requests.post] call does: it answers with a status code and
    a body, or raises.  The string of a raising case is [str(e)]. *)
Inductive post_result :=
| Response (status_code : Z) (text : string)
| RaisesConnectionError (e : string)
| RaisesTimeout (e : string)
| RaisesRequestException (e : string)
| RaisesException (e : string).

(** The webhook as the script sees it: the answer to the POST of each
    attempt of one call. *)
Definition webhook := nat -> post_result.

Record payload := {
  text : string;
  username : string;
  icon_emoji : string;
}.

(** Lines printed on stderr. *)
Inductive log_line :=
| LogDeliveredOnAttempt (nth : nat)
| LogHttpFailure (status_code : Z) (body : string)
| LogRetry (nth : nat) (total : Z) (e : string)
| LogWait (seconds : Z)
| LogFinalFailure (e : string)
| LogFailure (e : string).

(** Observable actions of a call, in program order. *)
Inductive event :=
| EvPost (attempt : nat) (url : string) (body : payload)
| EvLog (line : log_line)
| EvSleep (seconds : Z).

(** How a call ends: [return b], or an exception leaves the function. *)
Inductive outcome :=
| Return (b : bool)
| Raise (exc : string).

Definition run := (outcome * list event)%type.

(** Perform [evs], then go on as [k]. *)
Definition emit (evs : list event) (k : run) : run := (fst k, evs ++ snd k).

(** [time.sleep(seconds)] for an integer: the length is first converted
    to nanoseconds in a signed 64-bit integer, which raises
    [OverflowError] when it does not fit, from 9223372037 seconds on in
    either direction; a negative length that fits raises [ValueError].
    [None] means that the call slept. *)
Definition sleep_limit : Z := 9223372037.

Definition time_sleep (seconds : Z) : option string :=
  if (seconds <=? - sleep_limit) || (sleep_limit <=? seconds)
  then Some "OverflowError"
  else if seconds <? 0 then Some "ValueError"
  else None.

(** The test of line 88 on [str(e)]. *)
Definition retryable (e : string) : bool :=
  Py.contains "Connection reset by peer" e || Py.contains "Connection aborted" e.

Section Delivery.

Variable hook : webhook.
Variables (webhook_url : string) (body : payload).
Variables (max_retries retry_delay : Z).

(** The handler of [except (ConnectionError, Timeout)].  An exception
    raised by [time.sleep] inside the handler leaves the function. *)
Definition on_network_error (attempt : nat) (e : string) (continue : run) : run :=
  if retryable e then
    if Z.of_nat attempt <? max_retries then
      emit [EvLog (LogRetry (attempt + 1) (max_retries + 1) e);
            EvLog (LogWait retry_delay)]
        (match time_sleep retry_delay with
         | Some exc => (Raise exc, [])
         | None => emit [EvSleep retry_delay] continue
         end)
    else emit [EvLog (LogFinalFailure e)] (Return false, [])
  else emit [EvLog (LogFailure e)] (Return false, []).

(** The [for attempt in ...] loop over the attempts still to make; the
    empty list is the fall-through to the closing [return False]. *)
Fixpoint attempt_loop (attempts : list nat) : run :=
  match attempts with
  | [] => (Return false, [])
  | attempt :: rest =>
      emit [EvPost attempt webhook_url body]
        match hook attempt with
        | Response status_code txt =>
            if status_code =? 200 then
              emit (if (0 <? attempt)%nat
                    then [EvLog (LogDeliveredOnAttempt (attempt + 1))]
                    else [])
                (Return true, [])
            else
              emit [EvLog (LogHttpFailure status_code txt)] (attempt_loop rest)
        | RaisesConnectionError e => on_network_error attempt e (attempt_loop rest)
        | RaisesTimeout e => on_network_error attempt e (attempt_loop rest)
        | RaisesRequestException e => emit [EvLog (LogFailure e)] (Return false, [])
        | RaisesException e => emit [EvLog (LogFailure e)] (Return false, [])
        end
  end.

End Delivery.

Definition send_slack_message (hook : webhook)
    (webhook_url : option string) (message user : string)
    (max_retries retry_delay : Z) : run :=
  match webhook_url with
  | Some url =>
      if negb (Py.truthy_str url) then (Return false, [])
      else
        let body := {| text := message; username := user;
                       icon_emoji := ":robot_face:" |} in
        attempt_loop hook url body max_retries retry_delay
          (Py.range (max_retries + 1))
  | None => (Return false, [])
  end.

(** Defaults of the keyword arguments. *)
Definition default_username : string := "k8s-gpu-checker".
Definition default_max_retries : Z := 3.
Definition default_retry_delay : Z := 30.

(** *** Projections of a trace *)

(** Attempt numbers of the POSTs made, in order. *)
Fixpoint posts (t : list event) : list nat :=
  match t with
  | [] => []
  | EvPost attempt _ _ :: t' => attempt :: posts t'
  | _ :: t' => posts t'
  end.

(** Lengths of the sleeps performed, in order. *)
Fixpoint sleeps (t : list event) : list Z :=
  match t with
  | [] => []
  | EvSleep d :: t' => d :: sleeps t'
  | _ :: t' => sleeps t'
  end.

(** Log lines printed, in order. *)
Fixpoint logs (t : list event) : list log_line :=
  match t with
  | [] => []
  | EvLog l :: t' => l :: logs t'
  | _ :: t' => logs t'
  end.

(** Total time spent sleeping. *)
Definition total_delay (t : list event) : Z := Py.sum (sleeps t).



(** A webhook URL and scripted webhooks for the scenarios. *)
Definition example_url : string :=
  "https://hooks.slack.com/services/T000/B000/XXXX".

Definition always_500 : webhook := fun _ => Response 500 "internal error".

Definition reset_msg : string :=
  "('Connection aborted.', ConnectionResetError(104, 'Connection reset by peer'))".

Definition reset_twice_then_200 : webhook :=
  fun attempt =>
    match attempt with
    | 0%nat | 1%nat => RaisesConnectionError reset_msg
    | _ => Response 200 "ok"
    end.


Definition error_500_then_200 : webhook :=
  fun attempt =>
    match attempt with
    | 0%nat => Response 500 "internal error"
    | _ => Response 200 "ok"
    end.

End Slack.

(* ===================================================================== *)
(** ** Text rendering, notification decision, console output and entry point *)
(* ===================================================================== *)

(** *** More Python builtins: strings as UTF-8 byte sequences *)

Module PyStr.

Definition newline : string := String (ascii_of_nat 10) EmptyString.

(** A byte [10xxxxxx] continues a code point started by an earlier byte. *)
Definition is_continuation (c : ascii) : bool :=
  let n := nat_of_ascii c in ((128 <=? n)%nat && (n <? 192)%nat).

(** [len(s)]: the number of code points of the string. *)
Fixpoint len (s : string) : nat :=
  match s with
  | EmptyString => 0%nat
  | String c s' => ((if is_continuation c then 0 else 1) + len s')%nat
  end.

(** [c * n] for a one-character string [c]. *)
Fixpoint times (c : string) (n : nat) : string :=
  match n with
  | O => EmptyString
  | S n' => c +:+ times c n'
  end.

(** [s.ljust(width)]: pad with spaces on the right up to [width]
    characters; a longer string is returned unchanged. *)
Definition ljust (s : string) (width : nat) : string :=
  s +:+ times " " (width - len s).

(** [sep.join(parts)]. *)
Fixpoint join (sep : string) (parts : list string) : string :=
  match parts with
  | [] => EmptyString
  | [p] => p
  | p :: ps => p +:+ sep +:+ join sep ps
  end.

(** [str(b)] for a boolean. *)
Definition str_bool (b : bool) : string := if b then "True" else "False".

(** [str(n)] for an integer. *)
Definition str_int (n : Z) : string := pretty n.

(** [str(len(xs))]. *)
Definition str_nat (n : nat) : string := pretty n.

(** [str(x)] for an optional string, as an f-string renders it. *)
Definition str_opt (o : option string) : string :=
  match o with
  | Some s => s
  | None => "None"
  end.

(** [bool(x)] for an optional string. *)
Definition truthy_opt (o : option string) : bool :=
  match o with
  | Some s => Py.truthy_str s
  | None => false
  end.

End PyStr.

(** *** Command line and environment *)

(** The namespace built by [parse_args]. *)
Record Args := {
  kubeconfig : option string;
  json : bool;
  slack_webhook : option string;
  slack_username : string;
  slack_only_on_error : bool;
  slack_retry_count : Z;
  slack_retry_delay : Z;
}.

(** [os.environ]. *)
Abbreviation Environ := (gmap string string).

Definition get_slack_webhook_url (args : Args) (environ : Environ) : option string :=
  if PyStr.truthy_opt (slack_webhook args) then slack_webhook args
  else environ !! "SLACK_WEBHOOK_URL".

Definition should_send_slack_message (args : Args) (environ : Environ)
    (gpu_nodes ready_gpu_nodes : list NodeInfo) : bool :=
  let webhook_url := get_slack_webhook_url args environ in
  if negb (PyStr.truthy_opt webhook_url) then false
  else if slack_only_on_error args then (length ready_gpu_nodes =? 0)%nat
  else true.

(** *** The Slack message *)

(** [f"{k}:{v}"] for every item of the breakdown. *)
Definition breakdown_items (d : list (string * Z)) : list string :=
  map (fun kv => fst kv +:+ ":" +:+ PyStr.str_int (snd kv)) d.

(** The body of the [for node in gpu_nodes] loop of
    [format_slack_message]: the text appended for one node. *)
Definition slack_node_line (node : NodeInfo) : string :=
  let ready_status := if ready node then "✅ Ready" else "❌ Not Ready" in
  let gpu_info := "GPU: " +:+ PyStr.str_int (gpus node) in
  let gpu_info :=
    if Py.truthy_list (gpu_breakdown node)
    then gpu_info +:+ " (" +:+ PyStr.join ", " (breakdown_items (gpu_breakdown node))
                  +:+ ")"
    else gpu_info in
  PyStr.newline +:+ "• `" +:+ PyStr.str_opt (name node) +:+ "`: "
    +:+ ready_status +:+ ", " +:+ gpu_info.

(** The emoji and the sentence of the first line. *)
Definition slack_status (gpu_nodes ready_gpu_nodes : list NodeInfo)
  : string * string :=
  if Py.truthy_list ready_gpu_nodes then
    ("✅",
     "Ready 상태의 GPU 노드: " +:+ PyStr.str_nat (length ready_gpu_nodes)
       +:+ "개 / 전체 GPU 노드: " +:+ PyStr.str_nat (length gpu_nodes) +:+ "개")
  else if Py.truthy_list gpu_nodes then
    ("⚠️",
     "GPU 노드는 " +:+ PyStr.str_nat (length gpu_nodes)
       +:+ "개 있으나, Ready 상태 노드는 없습니다.")
  else
    ("❌", "GPU 노드가 없습니다.").

Definition format_slack_message (gpu_nodes ready_gpu_nodes : list NodeInfo)
  : string :=
  let '(status_emoji, status_text) := slack_status gpu_nodes ready_gpu_nodes in
  let message :=
    status_emoji +:+ " *K8s GPU 노드 상태*" +:+ PyStr.newline +:+ status_text in
  if Py.truthy_list gpu_nodes then
    foldl (fun message node => message +:+ slack_node_line node)
      (message +:+ PyStr.newline +:+ PyStr.newline +:+ "*노드 상세 정보:*")
      gpu_nodes
  else message.

(** *** Console output and exceptions *)

(** What the script writes, in program order.  The points of a Slack call
    are its events; a JSON document is kept as the value handed to
    [json.dumps]. *)
Inductive output :=
| OutSlack (ev : Slack.event)
| OutStdout (line : string)
| OutStderr (line : string)
| OutJson (total_nodes ready_nodes : nat) (nodes : list NodeInfo)
| OutJsonError (exc : string)
| OutTraceback.

(** A computation returns a value or raises; [exc] names the exception. *)
Inductive result (A : Type) :=
| Returns (a : A)
| Raises (exc : string).
Arguments Returns {A} a.
Arguments Raises {A} exc.

(** A computation with its output so far. *)
Definition io (A : Type) : Type := result A * list output.

Definition ret {A} (a : A) : io A := (Returns a, []).

Definition raise {A} (exc : string) : io A := (Raises exc, []).

Definition print (o : output) : io unit := (Returns tt, [o]).

Definition bind {A B} (m : io A) (k : A -> io B) : io B :=
  match fst m with
  | Returns a => (fst (k a), snd m ++ snd (k a))
  | Raises exc => (Raises exc, snd m)
  end.

Notation "x <- m ;; k" := (bind m (fun x => k))
  (at level 100, m at next level, right associativity).
Notation "m ;;; k" := (bind m (fun _ => k))
  (at level 100, right associativity).

(** A [for] loop whose body may print and raise. *)
Fixpoint for_each {A} (xs : list A) (body : A -> io unit) : io unit :=
  match xs with
  | [] => ret tt
  | x :: xs' => body x ;;; for_each xs' body
  end.

(** [len(node["name"])]: [len(None)] raises [TypeError]. *)
Definition name_len (node : NodeInfo) : io nat :=
  match name node with
  | Some s => ret (PyStr.len s)
  | None => raise "TypeError"
  end.

(** [max(len(node["name"]) for node in gpu_nodes)]: the lengths are computed
    one node after the other; [max] of nothing raises [ValueError]. *)
Fixpoint max_name_len_from (best : nat) (nodes : list NodeInfo) : io nat :=
  match nodes with
  | [] => ret best
  | node :: rest => n <- name_len node ;; max_name_len_from (Nat.max best n) rest
  end.

Definition max_name_len (nodes : list NodeInfo) : io nat :=
  match nodes with
  | [] => raise "ValueError"
  | node :: rest => n <- name_len node ;; max_name_len_from n rest
  end.

(** [node["name"].ljust(w)]: [None] has no [ljust]. *)
Definition name_ljust (node : NodeInfo) (w : nat) : io string :=
  match name node with
  | Some s => ret (PyStr.ljust s w)
  | None => raise "AttributeError"
  end.

(** The last column of a table row. *)
Definition keys_str (node : NodeInfo) : string :=
  if Py.truthy_list (gpu_breakdown node)
  then PyStr.join "," (breakdown_items (gpu_breakdown node))
  else "-".

Definition print_table (gpu_nodes : list NodeInfo) : io unit :=
  if negb (Py.truthy_list gpu_nodes) then
    print (OutStdout "GPU 노드가 존재하지 않습니다.")
  else
    longest <- max_name_len gpu_nodes ;;
    let w_name := Nat.max (PyStr.len "NAME") longest in
    let w_ready := PyStr.len "READY" in
    let w_total := PyStr.len "GPU(TOTAL)" in
    let w_keys := PyStr.len "GPU(KEYS)" in
    print (OutStdout (PyStr.ljust "NAME" w_name +:+ "  "
                      +:+ PyStr.ljust "READY" w_ready +:+ "  "
                      +:+ PyStr.ljust "GPU(TOTAL)" w_total +:+ "  "
                      +:+ "GPU(KEYS)")) ;;;
    print (OutStdout (PyStr.times "-" w_name +:+ "  "
                      +:+ PyStr.times "-" w_ready +:+ "  "
                      +:+ PyStr.times "-" w_total +:+ "  "
                      +:+ PyStr.times "-" w_keys)) ;;;
    for_each gpu_nodes (fun node =>
      padded <- name_ljust node w_name ;;
      print (OutStdout (padded +:+ "  "
                        +:+ PyStr.ljust (PyStr.str_bool (ready node)) w_ready +:+ "  "
                        +:+ PyStr.ljust (PyStr.str_int (gpus node)) w_total +:+ "  "
                        +:+ keys_str node))).

(** *** The run *)

(** The answer of [api.list_node()]: a listing, or an exception. *)
Inductive listing :=
| Listed (items : option (list V1Node))
| ListingFails (exc : string).

(** [list_gpu_nodes(api)] with the API call that feeds it. *)
Definition list_gpu_nodes_of (api : listing)
  : io (list NodeInfo * list NodeInfo) :=
  match api with
  | Listed items => ret (list_gpu_nodes items)
  | ListingFails exc => raise exc
  end.

(** The call of [send_slack_message] as a computation: its events become
    output, and an exception that leaves it is raised further. *)
Definition send_slack_message_io (hook : Slack.webhook)
    (webhook_url : option string) (message user : string)
    (max_retries retry_delay : Z) : io bool :=
  let call := Slack.send_slack_message hook webhook_url message user
                max_retries retry_delay in
  (match fst call with
   | Slack.Return b => Returns b
   | Slack.Raise exc => Raises exc
   end,
   map OutSlack (snd call)).

(** The first line of the text report (lines 281 to 286). *)
Definition summary_line (gpu_nodes ready_gpu_nodes : list NodeInfo) : string :=
  if Py.truthy_list ready_gpu_nodes then
    "✅ Ready 상태의 GPU 노드: " +:+ PyStr.str_nat (length ready_gpu_nodes)
      +:+ "개 / 전체 GPU 노드: " +:+ PyStr.str_nat (length gpu_nodes) +:+ "개"
  else if Py.truthy_list gpu_nodes then
    "⚠️ GPU 노드는 " +:+ PyStr.str_nat (length gpu_nodes)
      +:+ "개 있으나, Ready 상태 노드는 없습니다."
  else "❌ GPU 노드가 없습니다.".

(** The notification step of [one_shot] (lines 257 to 271). *)
Definition notify (args : Args) (environ : Environ) (hook : Slack.webhook)
    (gpu_nodes ready_gpu_nodes : list NodeInfo) : io unit :=
  if should_send_slack_message args environ gpu_nodes ready_gpu_nodes then
    let webhook_url := get_slack_webhook_url args environ in
    if PyStr.truthy_opt webhook_url then
      let slack_message := format_slack_message gpu_nodes ready_gpu_nodes in
      success <- send_slack_message_io hook webhook_url slack_message
                   (slack_username args) (slack_retry_count args)
                   (slack_retry_delay args) ;;
      if success && negb (json args) then
        print (OutStdout "✅ 슬랙 메시지를 성공적으로 전송했습니다.")
      else if negb success && negb (json args) then
        print (OutStderr "❌ 슬랙 메시지 전송에 실패했습니다.")
      else ret tt
    else ret tt
  else ret tt.

Definition one_shot (args : Args) (environ : Environ) (api : listing)
    (hook : Slack.webhook) : io Z :=
  lists <- list_gpu_nodes_of api ;;
  let gpu_nodes := fst lists in
  let ready_gpu_nodes := snd lists in
  notify args environ hook gpu_nodes ready_gpu_nodes ;;;
  (if json args then
     print (OutJson (length gpu_nodes) (length ready_gpu_nodes) gpu_nodes)
   else
     print (OutStdout (summary_line gpu_nodes ready_gpu_nodes)) ;;;
     print_table gpu_nodes) ;;;
  ret (one_shot_status gpu_nodes ready_gpu_nodes).

(** Where [load_kube_config] takes the configuration from. *)
Inductive kube_source :=
| ConfigFile (path : string)
| DefaultConfig.

(** [load_kube_config]: [path_exists] is [os.path.exists], and [loader]
    tells which exception, if any, [config.load_kube_config] raises for a
    source. *)
Definition load_kube_config (args : Args) (environ : Environ)
    (path_exists : string -> bool) (loader : kube_source -> option string)
  : io unit :=
  let load source :=
    match loader source with
    | Some exc => raise exc
    | None => ret tt
    end in
  match kubeconfig args with
  | Some (String c p) => load (ConfigFile (String c p))
  | _ =>
      match environ !! "KUBECONFIG" with
      | Some (String c p) =>
          if path_exists (String c p) then load (ConfigFile (String c p))
          else load DefaultConfig
      | _ => load DefaultConfig
      end
  end.

(** [main], after [parse_args]: the exit code and everything written. *)
Definition main (args : Args) (environ : Environ)
    (path_exists : string -> bool) (loader : kube_source -> option string)
    (api : listing) (hook : Slack.webhook) : Z * list output :=
  let body := load_kube_config args environ path_exists loader ;;;
              one_shot args environ api hook in
  match fst body with
  | Returns code => (code, snd body)
  | Raises exc =>
      (1, snd body ++ (if json args then [OutJsonError exc]
                       else [OutStderr ("에러: " +:+ exc); OutTraceback]))
  end.

(** *** Example inputs *)

Definition example_args : Args :=
  {| kubeconfig := None; json := false;
     slack_webhook := Some Slack.example_url;
     slack_username := Slack.default_username;
     slack_only_on_error := false;
     slack_retry_count := Slack.default_max_retries;
     slack_retry_delay := Slack.default_retry_delay |}.

Definition always_200 : Slack.webhook := fun _ => Slack.Response 200 "ok".


(** *** Notions used to state the properties of the report *)

(** Concatenation of a list of strings. *)
Definition concat_str (parts : list string) : string :=
  foldr String.append EmptyString parts.

(** The first two lines of the Slack message. *)
Definition slack_headline (gpu_nodes ready_gpu_nodes : list NodeInfo) : string :=
  fst (slack_status gpu_nodes ready_gpu_nodes) +:+ " *K8s GPU 노드 상태*"
    +:+ PyStr.newline +:+ snd (slack_status gpu_nodes ready_gpu_nodes).

(** Every node of the list has a name. *)
Definition all_named (nodes : list NodeInfo) : bool :=
  forallb (fun node => match name node with Some _ => true | None => false end)
    nodes.

(** Width of the NAME column: the longest name, and at least the width of
    the column title. *)
Definition table_width (nodes : list NodeInfo) : nat :=
  Nat.max (PyStr.len "NAME")
    (foldr Nat.max 0%nat (map (fun node => PyStr.len (default "" (name node))) nodes)).

(** The row of a named node in a table whose NAME column is [w] wide. *)
Definition table_row (w : nat) (node : NodeInfo) : string :=
  PyStr.ljust (default "" (name node)) w +:+ "  "
    +:+ PyStr.ljust (PyStr.str_bool (ready node)) 5 +:+ "  "
    +:+ PyStr.ljust (PyStr.str_int (gpus node)) 10 +:+ "  "
    +:+ keys_str node.

(** The title row and the rule below it. *)
Definition table_head (w : nat) : list string :=
  [ PyStr.ljust "NAME" w +:+ "  READY  GPU(TOTAL)  GPU(KEYS)";
    PyStr.times "-" w +:+ "  -----  ----------  ---------" ].

(** What goes to standard output. *)
Definition on_stdout (o : output) : bool :=
  match o with
  | OutStdout _ | OutJson _ _ _ | OutJsonError _ => true
  | _ => false
  end.

(** The Slack events among the output. *)
Definition slack_events (out : list output) : list Slack.event :=
  omap (fun o => match o with OutSlack ev => Some ev | _ => None end) out.

(* ===================================================================== *)
(** ** Properties of the node classifier *)
(* ===================================================================== *)

Section Classifier.

Implicit Types (node : V1Node) (cap : gmap string string).
Implicit Types (caps : list (string * Z)) (conds : list condition_item).

Lemma is_ready_condition_spec item :
  is_ready_condition item = true <->
  exists cond, item = IsCondition cond /\ ready_true cond.
Proof.
  destruct item as [cond|]; simpl.
  - rewrite andb_true_iff, !String.eqb_eq. split.
    + intros H. exists cond. split; [reflexivity | exact H].
    + intros (cond' & Heq & H). injection Heq as <-. exact H.
  - split; [discriminate | intros (cond & Heq & _); discriminate].
Qed.

Lemma is_ready_scan_spec conds :
  is_ready_scan conds = true <->
  exists cond, In (IsCondition cond) conds /\ ready_true cond.
Proof.
  induction conds as [|item rest IH]; simpl.
  - split; [discriminate | intros (cond & [] & _)].
  - destruct (is_ready_condition item) eqn:Hitem.
    + apply is_ready_condition_spec in Hitem as (cond & -> & Hc).
      split; [|reflexivity]. intros _. exists cond. split; [left; reflexivity | exact Hc].
    + rewrite IH. split.
      * intros (cond & Hin & Hc). exists cond. split; [right; exact Hin | exact Hc].
      * intros (cond & [Heq | Hin] & Hc).
        -- subst item.
           assert (is_ready_condition (IsCondition cond) = true) as Habs
             by (apply is_ready_condition_spec; eauto).
           congruence.
        -- exists cond. split; assumption.
Qed.

Lemma is_ready_spec node :
  is_ready node = true <->
  exists st conds cond,
    status node = Some st /\ conditions st = Some conds /\
    In (IsCondition cond) conds /\ ready_true cond.
Proof.
  unfold is_ready. destruct (status node) as [st|].
  - destruct (conditions st) as [conds|] eqn:Hconds.
    + assert ((if negb (Py.truthy_list conds) then false else is_ready_scan conds)
              = is_ready_scan conds) as -> by (destruct conds; reflexivity).
      rewrite is_ready_scan_spec. split.
      * intros (cond & Hin & Hc). exists st, conds, cond. auto.
      * intros (st' & conds' & cond & Hst & Hcs & Hin & Hc).
        injection Hst as <-. rewrite Hconds in Hcs. injection Hcs as <-.
        exists cond. auto.
    + split; [discriminate|]. intros (st' & conds & cond & Hst & Hcs & _).
      injection Hst as <-. congruence.
  - split; [discriminate|]. intros (st & conds & cond & Hst & _). discriminate.
Qed.

Lemma dict_set_fresh {V} (d : list (string * V)) k v :
  ~ In k (Py.keys d) -> Py.dict_set d k v = d ++ [(k, v)].
Proof.
  induction d as [|[k' v'] d IH]; simpl; intros Hk; [reflexivity|].
  destruct (String.eqb_spec k' k) as [->|Hne].
  - exfalso. apply Hk. left. reflexivity.
  - rewrite IH; [reflexivity|]. intros Hin. apply Hk. right. exact Hin.
Qed.

Lemma gpu_capacity_step_fresh cap caps key :
  ~ In key (Py.keys caps) ->
  gpu_capacity_step cap caps key =
  caps ++ match parsed_entry cap key with Some e => [e] | None => [] end.
Proof.
  intros Hk. unfold gpu_capacity_step, parsed_entry.
  destruct (cap !! key) as [val|]; [|by rewrite app_nil_r].
  destruct (Py.truthy_str val); simpl; [|by rewrite app_nil_r].
  destruct (Py.int val) as [n|]; simpl; [|by rewrite app_nil_r].
  by apply dict_set_fresh.
Qed.

Lemma parsed_entry_key cap key e : parsed_entry cap key = Some e -> fst e = key.
Proof.
  unfold parsed_entry. destruct (cap !! key) as [val|]; [|discriminate].
  destruct (Py.truthy_str val); [|discriminate].
  destruct (Py.int val); simpl; [|discriminate]. by intros [= <-].
Qed.

Lemma keys_omap_parsed cap (ks : list string) k :
  In k (Py.keys (omap (parsed_entry cap) ks)) -> In k ks.
Proof.
  induction ks as [|k0 ks IH]; simpl; [tauto|].
  destruct (parsed_entry cap k0) as [e|] eqn:He; simpl.
  - intros [Hk | Hk]; [left | right; by apply IH].
    apply parsed_entry_key in He. congruence.
  - intros Hk. right. by apply IH.
Qed.

(** The key loop appends, in key order, the entry of every key that has
    one: no key is visited twice, so no entry is ever overwritten. *)
Lemma gpu_capacity_loop cap (ks : list string) caps :
  List.NoDup ks ->
  (forall k, In k ks -> ~ In k (Py.keys caps)) ->
  foldl (gpu_capacity_step cap) caps ks = caps ++ omap (parsed_entry cap) ks.
Proof.
  revert caps. induction ks as [|k ks IH]; intros caps Hnd Hfresh; simpl.
  - by rewrite app_nil_r.
  - inversion Hnd as [|? ? Hk Hnd']; subst.
    rewrite gpu_capacity_step_fresh by (apply Hfresh; left; reflexivity).
    rewrite IH; [| assumption |].
    + rewrite <- app_assoc. by destruct (parsed_entry cap k).
    + intros k' Hk'. unfold Py.keys. rewrite map_app, in_app_iff.
      intros [Hin | Hin].
      * eapply Hfresh; [right; exact Hk' | exact Hin].
      * destruct (parsed_entry cap k) as [e|] eqn:He; simpl in Hin; [|tauto].
        destruct Hin as [Hin|[]]. apply parsed_entry_key in He. congruence.
Qed.

Lemma GPU_RESOURCE_KEYS_NoDup : List.NoDup GPU_RESOURCE_KEYS.
Proof.
  unfold GPU_RESOURCE_KEYS.
  repeat (constructor; [simpl; intros H; intuition discriminate|]). constructor.
Qed.

Lemma parsed_entry_empty key : parsed_entry ∅ key = None.
Proof. unfold parsed_entry. by rewrite lookup_empty. Qed.

(** [gpu_capacity] in closed form. *)
Lemma gpu_capacity_spec node :
  gpu_capacity node =
  match status node with
  | Some st =>
      match capacity st with
      | Some cap => omap (parsed_entry cap) GPU_RESOURCE_KEYS
      | None => []
      end
  | None => []
  end.
Proof.
  unfold gpu_capacity. destruct (status node) as [st|]; [|reflexivity].
  destruct (capacity st) as [cap|]; [|reflexivity].
  case_bool_decide as Hcap.
  - subst cap. simpl. by rewrite !parsed_entry_empty.
  - rewrite gpu_capacity_loop; [reflexivity | apply GPU_RESOURCE_KEYS_NoDup |].
    intros k _ [].
Qed.

Lemma in_omap_parsed cap (ks : list string) k v :
  In (k, v) (omap (parsed_entry cap) ks) <->
  In k ks /\ exists val, cap !! k = Some val /\ val <> "" /\ Py.int val = Some v.
Proof.
  assert (forall k0, parsed_entry cap k0 = Some (k, v) <->
            k0 = k /\ exists val, cap !! k = Some val /\ val <> "" /\ Py.int val = Some v)
    as Hentry.
  { intros k0. unfold parsed_entry. split.
    - destruct (cap !! k0) as [val|] eqn:Hl; [|discriminate].
      destruct val as [|c val]; simpl; [discriminate|].
      destruct (Py.int (String c val)) as [n|] eqn:Hn; simpl; [|discriminate].
      intros [= -> ->]. split; [reflexivity|]. exists (String c val). by rewrite Hl.
    - intros (-> & val & -> & Hne & Hn). destruct val; [done|]. simpl. by rewrite Hn. }
  induction ks as [|k0 ks IH]; simpl.
  - split; [tauto | intros [[] _]].
  - destruct (parsed_entry cap k0) as [e|] eqn:He; simpl.
    + rewrite IH. split.
      * intros [-> | [Hin Hv]]; [|by auto].
        apply Hentry in He as [-> Hv]. auto.
      * intros [[-> | Hin] Hv]; [left | right; by auto].
        assert (parsed_entry cap k = Some (k, v)) by (by apply Hentry). congruence.
    + rewrite IH. split; [intros [Hin Hv]; auto|].
      intros [[-> | Hin] Hv]; [|by auto].
      assert (parsed_entry cap k = Some (k, v)) by (by apply Hentry). congruence.
Qed.

Lemma keys_omap_parsed_sublist cap (ks : list string) :
  Py.keys (omap (parsed_entry cap) ks) `sublist_of` ks.
Proof.
  induction ks as [|k ks IH]; simpl; [constructor|].
  destruct (parsed_entry cap k) as [e|] eqn:He; simpl.
  - apply parsed_entry_key in He. rewrite He. by constructor.
  - by constructor.
Qed.

Lemma gpus_is_sum node :
  gpus (extract_node_info node) =
  Py.sum (Py.values (gpu_breakdown (extract_node_info node))).
Proof. simpl. by destruct (gpu_capacity node). Qed.

End Classifier.

Section ClassifierClaims.

(** C5. The [ready] field of a classified node is [True] exactly when the
    node's condition list holds a [V1NodeCondition] of type "Ready" whose
    status is the literal "True".  A node without status block, without
    condition list, or whose Ready condition carries any other status
    ("False", "Unknown", "true", "TRUE", ...) is not ready. *)
Theorem ready_iff_ready_true_condition :
  (forall node,
      ready (extract_node_info node) = true <->
      exists st conds cond,
        status node = Some st /\ conditions st = Some conds /\
        In (IsCondition cond) conds /\
        cond_type cond = "Ready" /\ cond_status cond = "True") /\
  (forall md sp,
      ready (extract_node_info {| metadata := md; spec := sp; status := None |})
      = false) /\
  (forall md sp cap,
      ready (extract_node_info
               {| metadata := md; spec := sp;
                  status := Some {| conditions := None; capacity := cap |} |})
      = false) /\
  (forall cap st,
      ready (extract_node_info (node_with (Some [ready_condition st]) cap))
      = String.eqb st "True") /\
  (forall cap,
      Forall (fun st =>
                ready (extract_node_info (node_with (Some [ready_condition st]) cap))
                = false)
        ["False"; "Unknown"; "true"; "TRUE"; "True "; ""]).
Proof.
  split; [| split; [| split; [| split]]].
  - intros node. apply is_ready_spec.
  - reflexivity.
  - reflexivity.
  - intros cap st. simpl. unfold is_ready. simpl.
    by destruct (String.eqb st "True").
  - intros cap. repeat constructor.
Qed.

(** C2, as the code has it.  For every node the [gpus] field is the sum of
    the values of [gpu_breakdown]; [gpu_breakdown] has one entry per
    recognized key that is present in the capacity mapping with a
    non-empty value accepted by [int], holding the parsed integer
    (positive, zero or negative), the keys following the order of
    [GPU_RESOURCE_KEYS];
    keys whose value is missing, empty or unparsable have no entry; a node
    without capacity data has an empty breakdown and [gpus = 0]. *)
Theorem breakdown_holds_parsed_capacity :
  (forall node,
      let info := extract_node_info node in
      gpus info = Py.sum (Py.values (gpu_breakdown info)) /\
      Py.keys (gpu_breakdown info) `sublist_of` GPU_RESOURCE_KEYS /\
      (forall k v,
          In (k, v) (gpu_breakdown info) <->
          In k GPU_RESOURCE_KEYS /\
          exists st cap val,
            status node = Some st /\ capacity st = Some cap /\
            cap !! k = Some val /\ val <> "" /\ Py.int val = Some v)) /\
  (forall md sp,
      let info := extract_node_info {| metadata := md; spec := sp; status := None |} in
      gpu_breakdown info = [] /\ gpus info = 0) /\
  (forall md sp conds,
      let info := extract_node_info
                    {| metadata := md; spec := sp;
                       status := Some {| conditions := conds; capacity := None |} |} in
      gpu_breakdown info = [] /\ gpus info = 0) /\
  (Py.int "abc" = None /\
   gpu_breakdown (extract_node_info node_two_gpus) = [("nvidia.com/gpu", 2)] /\
   gpus (extract_node_info node_two_gpus) = 2).
Proof.
  split; [| split; [| split]].
  - intros node info. split; [apply gpus_is_sum|].
    subst info. cbn [gpu_breakdown extract_node_info]. rewrite gpu_capacity_spec.
    destruct (status node) as [st|] eqn:Hst.
    + destruct (capacity st) as [cap|] eqn:Hcap.
      * split; [apply keys_omap_parsed_sublist|].
        intros k v. rewrite in_omap_parsed. split.
        -- intros [Hk (val & Hv)]. split; [exact Hk|]. by exists st, cap, val.
        -- intros [Hk (st' & cap' & val & Hst' & Hcap' & Hv)]. split; [exact Hk|].
           injection Hst' as <-. rewrite Hcap in Hcap'. injection Hcap' as <-.
           by exists val.
      * split; [apply sublist_nil_l|]. intros k v. split; [intros []|].
        intros [_ (st' & cap & val & Hst' & Hcap' & _)].
        injection Hst' as <-. congruence.
    + split; [apply sublist_nil_l|]. intros k v. split; [intros []|].
      intros [_ (st & cap & val & Hst' & _)]. discriminate.
  - intros md sp. split; reflexivity.
  - intros md sp conds. split; reflexivity.
  - split; [reflexivity|]. split; vm_compute; reflexivity.
Qed.

(** C2, as stated, fails: a capacity of "0" is a non-empty string, so the
    key is recorded with value 0. *)
Lemma zero_capacity_is_recorded :
  gpu_breakdown (extract_node_info node_zero_capacity) = [("nvidia.com/gpu", 0)] /\
  ~ (forall k v,
        In (k, v) (gpu_breakdown (extract_node_info node_zero_capacity)) -> 0 < v).
Proof.
  assert (gpu_breakdown (extract_node_info node_zero_capacity)
          = [("nvidia.com/gpu", 0)]) as Heq by (vm_compute; reflexivity).
  split; [exact Heq|]. intros H.
  specialize (H "nvidia.com/gpu" 0). rewrite Heq in H.
  specialize (H (or_introl eq_refl)). lia.
Qed.

End ClassifierClaims.

(* ===================================================================== *)
(** ** Properties of the aggregator and of the exit status *)
(* ===================================================================== *)

Section Aggregator.

Implicit Types (nodes : list V1Node) (infos gpu_nodes ready_gpu_nodes : list NodeInfo).

(** The loop, started from any pair of lists, appends to the first the
    GPU nodes among the classified nodes and to the second the ready ones
    among those. *)
Lemma list_gpu_nodes_loop nodes gpu_nodes ready_gpu_nodes :
  foldl list_gpu_nodes_step (gpu_nodes, ready_gpu_nodes) nodes =
  (gpu_nodes ++ List.filter is_gpu_node (map extract_node_info nodes),
   ready_gpu_nodes
     ++ List.filter ready (List.filter is_gpu_node (map extract_node_info nodes))).
Proof.
  revert gpu_nodes ready_gpu_nodes.
  induction nodes as [|n nodes IH]; intros gpu_nodes ready_gpu_nodes.
  - simpl. by rewrite !app_nil_r.
  - cbn [foldl map List.filter]. unfold list_gpu_nodes_step at 2.
    fold (is_gpu_node (extract_node_info n)).
    destruct (is_gpu_node (extract_node_info n)).
    + cbn [List.filter]. destruct (ready (extract_node_info n)).
      * rewrite IH, <- !app_assoc. reflexivity.
      * rewrite IH, <- !app_assoc. reflexivity.
    + apply IH.
Qed.

Lemma list_gpu_nodes_spec items :
  list_gpu_nodes items =
  (List.filter is_gpu_node (map extract_node_info (Py.or_list items)),
   List.filter ready
     (List.filter is_gpu_node (map extract_node_info (Py.or_list items)))).
Proof.
  unfold list_gpu_nodes. cbv zeta. by rewrite list_gpu_nodes_loop.
Qed.

Lemma filter_sublist {A} (p : A -> bool) (l : list A) : List.filter p l `sublist_of` l.
Proof.
  induction l as [|x l IH]; simpl; [constructor|].
  destruct (p x); by constructor.
Qed.

Lemma filter_length_le {A} (p : A -> bool) (l : list A) :
  (length (List.filter p l) <= length l)%nat.
Proof. apply sublist_length, filter_sublist. Qed.

Lemma one_shot_status_counts gpu_nodes ready_gpu_nodes :
  one_shot_status gpu_nodes ready_gpu_nodes =
  status_of_counts (length gpu_nodes) (length ready_gpu_nodes).
Proof. by destruct gpu_nodes, ready_gpu_nodes. Qed.

End Aggregator.

Section AggregatorClaims.

(** C7. [list_gpu_nodes] classifies every listed node in listing order;
    [gpu_nodes] is the classified nodes with [gpus > 0], in listing order,
    and [ready_gpu_nodes] is the nodes of [gpu_nodes] whose [ready] field
    is [True], in the same relative order. *)
Theorem list_gpu_nodes_partitions (items : option (list V1Node)) :
  let infos := map extract_node_info (Py.or_list items) in
  let gpu_nodes := fst (list_gpu_nodes items) in
  let ready_gpu_nodes := snd (list_gpu_nodes items) in
  gpu_nodes = List.filter (fun info => 0 <? gpus info) infos /\
  ready_gpu_nodes = List.filter ready gpu_nodes /\
  gpu_nodes `sublist_of` infos /\
  ready_gpu_nodes `sublist_of` gpu_nodes.
Proof.
  intros infos gpu_nodes ready_gpu_nodes.
  subst gpu_nodes ready_gpu_nodes infos. rewrite list_gpu_nodes_spec. cbn [fst snd].
  split; [reflexivity|]. split; [reflexivity|].
  split; apply filter_sublist.
Qed.

(** C3. The exit status returned after an evaluation depends only on the
    two lengths; it is 0 exactly when there is a ready GPU node, 3 exactly
    when there are GPU nodes and none is ready, 2 exactly when there is no
    GPU node; exactly one of the three cases holds. *)
Theorem exit_status_of_evaluation :
  (forall gpu_nodes ready_gpu_nodes,
      one_shot_status gpu_nodes ready_gpu_nodes =
      status_of_counts (length gpu_nodes) (length ready_gpu_nodes)) /\
  (forall items,
      let n_gpu := length (fst (list_gpu_nodes items)) in
      let n_ready := length (snd (list_gpu_nodes items)) in
      let code := one_shot_status (fst (list_gpu_nodes items))
                                  (snd (list_gpu_nodes items)) in
      let healthy := (1 <= n_ready)%nat in
      let degraded := (1 <= n_gpu)%nat /\ n_ready = 0%nat in
      let no_gpu := n_gpu = 0%nat in
      (code = 0 <-> healthy) /\
      (code = 3 <-> degraded) /\
      (code = 2 <-> no_gpu) /\
      ((healthy /\ ~ degraded /\ ~ no_gpu) \/
       (~ healthy /\ degraded /\ ~ no_gpu) \/
       (~ healthy /\ ~ degraded /\ no_gpu))).
Proof.
  split; [apply one_shot_status_counts|].
  intros items. cbv zeta.
  rewrite one_shot_status_counts, list_gpu_nodes_spec. cbn [fst snd].
  set (gpu_nodes := List.filter is_gpu_node _).
  pose proof (filter_length_le ready gpu_nodes) as Hle.
  unfold status_of_counts.
  destruct (Nat.leb_spec 1 (length (List.filter ready gpu_nodes))),
           (Nat.leb_spec 1 (length gpu_nodes)); lia.
Qed.

End AggregatorClaims.

(* ===================================================================== *)
(** ** Properties of the delivery loop *)
(* ===================================================================== *)



Section DeliveryLoop.

Import Slack.

Variable hook : webhook.
Variables (url : string) (body : payload).
Variables (max_retries retry_delay : Z).

Local Abbreviation loop := (attempt_loop hook url body max_retries retry_delay).


Lemma sleeps_app t1 t2 : sleeps (t1 ++ t2) = sleeps t1 ++ sleeps t2.
Proof.
  induction t1 as [|[a u b|l|d] t1 IH]; simpl; [reflexivity|exact IH|exact IH|].
  by rewrite IH.
Qed.

(** Case analysis on what the iteration for [a] does, following the
    branches of the loop body. *)
Ltac iteration a :=
  cbn [attempt_loop]; unfold on_network_error;
  destruct (hook a) as [code txt | e | e | e | e] eqn:Hhook;
  [ destruct (Z.eqb_spec code 200) as [Hcode | Hcode]
  | destruct (retryable e) eqn:Hretry;
    [ destruct (Z.ltb_spec (Z.of_nat a) max_retries) as [Hleft | Hleft];
      [ destruct (time_sleep retry_delay) as [exc_sleep|] eqn:Hsleep | ] | ]
  | destruct (retryable e) eqn:Hretry;
    [ destruct (Z.ltb_spec (Z.of_nat a) max_retries) as [Hleft | Hleft];
      [ destruct (time_sleep retry_delay) as [exc_sleep|] eqn:Hsleep | ] | ]
  | | ];
  unfold emit; cbn [fst snd app];
  try match goal with
      | |- context [if (0 <? a)%nat then _ else _] => destruct (0 <? a)%nat
      end;
  cbn [app posts sleeps length].

(** The POSTs made are those of an initial segment of the attempts. *)
Lemma loop_posts_prefix attempts :
  posts (snd (loop attempts)) `prefix_of` attempts.
Proof.
  induction attempts as [|a rest IH]; [by exists []|].
  iteration a; try (apply prefix_cons, IH); apply prefix_cons, prefix_nil.
Qed.

(** Every sleep lasts [retry_delay], and each is owed to an attempt that
    had retries left. *)
Lemma loop_sleeps attempts :
  Forall (eq retry_delay) (sleeps (snd (loop attempts))) /\
  (length (sleeps (snd (loop attempts)))
   <= length (List.filter (fun a => (Z.of_nat a <? max_retries)%Z) attempts))%nat.
Proof.
  induction attempts as [|a rest [IHd IHn]]; [split; [constructor | reflexivity]|].
  cbn [List.filter].
  iteration a.
  all: split; [repeat first [assumption | reflexivity | constructor] |].
  all: destruct (Z.ltb_spec (Z.of_nat a) max_retries); cbn [length]; lia.
Qed.

(** An iteration emits at most four events. *)
Lemma loop_trace_length attempts :
  (length (snd (loop attempts)) <= 4 * length attempts)%nat.
Proof.
  induction attempts as [|a rest IH]; [reflexivity|].
  iteration a; cbn [length] in *; lia.
Qed.


(** With a length that [time.sleep] accepts the call always returns a
    boolean. *)
Lemma loop_returns attempts :
  time_sleep retry_delay = None -> exists b, fst (loop attempts) = Return b.
Proof.
  intros Hdelay. induction attempts as [|a rest IH]; [by exists false|].
  iteration a; eauto; congruence.
Qed.


(** If the attempt [k] is reached, everything before it was a completed
    iteration, and the call goes on as the loop entered at [k]. *)
Lemma loop_reach before k rest :
  ~ In k before ->
  In k (posts (snd (loop (before ++ k :: rest)))) ->
  exists pre,
    loop (before ++ k :: rest) = emit pre (loop (k :: rest)) /\
    posts pre = before.
Proof.
  induction before as [|a before IH]; intros Hfresh Hin.
  - exists []. split; [| reflexivity].
    unfold emit. cbn [app]. by destruct (loop (k :: rest)).
  - assert (a <> k) as Hne by (intros ->; apply Hfresh; left; reflexivity).
    assert (~ In k before) as Hfresh' by (intros H; apply Hfresh; right; exact H).
    remember (loop (k :: rest)) as tail eqn:Htail.
    revert Hin. cbn [app]. iteration a.
    all: try (intros [Heq | []]; congruence).
    all: intros [Heq | Hin]; [congruence|].
    all: destruct (IH Hfresh' Hin) as (pre & -> & Hpre).
    all: unfold emit; cbn [fst snd].
    + exists (EvPost a url body :: EvLog (LogHttpFailure code txt) :: pre).
      split; [reflexivity | simpl; by rewrite Hpre].
    + eexists (EvPost a url body :: _ :: _ :: EvSleep retry_delay :: pre).
      split; [reflexivity | simpl; by rewrite Hpre].
    + eexists (EvPost a url body :: _ :: _ :: EvSleep retry_delay :: pre).
      split; [reflexivity | simpl; by rewrite Hpre].
Qed.

End DeliveryLoop.

Section SendSlackMessage.

Import Slack.

Implicit Types (hook : webhook) (url message user : string).
Implicit Types (max_retries retry_delay : Z) (t : list event).

Lemma send_slack_message_loop hook url message user max_retries retry_delay :
  send_slack_message hook (Some url) message user max_retries retry_delay =
  if Py.truthy_str url
  then attempt_loop hook url
         {| text := message; username := user; icon_emoji := ":robot_face:" |}
         max_retries retry_delay (seq 0 (Z.to_nat (max_retries + 1)))
  else (Return false, []).
Proof. unfold send_slack_message. by destruct (Py.truthy_str url). Qed.

Lemma prefix_of_seq (l : list nat) a n :
  l `prefix_of` seq a n -> l = seq a (length l) /\ (length l <= n)%nat.
Proof.
  intros [rest Heq]. assert (length l <= n)%nat as Hlen.
  { apply (f_equal length) in Heq. rewrite length_seq, length_app in Heq. lia. }
  split; [|exact Hlen].
  replace n with (length l + (n - length l))%nat in Heq by lia.
  rewrite seq_app in Heq. apply app_inj_1 in Heq; [by destruct Heq|].
  by rewrite length_seq.
Qed.

Lemma seq_split_at k n :
  (k < n)%nat -> seq 0 n = seq 0 k ++ k :: seq (S k) (n - S k).
Proof.
  intros Hk. replace n with (k + S (n - S k))%nat at 1 by lia.
  by rewrite seq_app.
Qed.

(** The POSTs of a call are those of the attempts 0, 1, ... up to the
    last one made, and there are at most [max_retries + 1] of them. *)
Lemma send_posts hook o message user max_retries retry_delay :
  let t := snd (send_slack_message hook o message user max_retries retry_delay) in
  posts t = seq 0 (length (posts t)) /\
  (length (posts t) <= Z.to_nat (max_retries + 1))%nat.
Proof.
  destruct o as [url|]; [|simpl; split; [reflexivity | lia]].
  rewrite send_slack_message_loop.
  destruct (Py.truthy_str url); [|simpl; split; [reflexivity | lia]].
  apply prefix_of_seq, loop_posts_prefix.
Qed.

(** A call that reaches attempt [k] has completed the iterations of the
    attempts before it and goes on as the loop entered at [k]. *)
Lemma send_reach hook url message user max_retries retry_delay k :
  In k (posts (snd (send_slack_message hook (Some url) message user
                      max_retries retry_delay))) ->
  (k < Z.to_nat (max_retries + 1))%nat /\
  exists pre,
    send_slack_message hook (Some url) message user max_retries retry_delay =
    emit pre
      (attempt_loop hook url
         {| text := message; username := user; icon_emoji := ":robot_face:" |}
         max_retries retry_delay
         (k :: seq (S k) (Z.to_nat (max_retries + 1) - S k))) /\
    posts pre = seq 0 k.
Proof.
  intros Hin.
  destruct (send_posts hook (Some url) message user max_retries retry_delay)
    as [Hseq Hlen].
  assert (k < Z.to_nat (max_retries + 1))%nat as Hk.
  { rewrite Hseq in Hin. apply in_seq in Hin. lia. }
  split; [exact Hk|].
  rewrite send_slack_message_loop in Hin |- *.
  destruct (Py.truthy_str url); [|destruct Hin].
  rewrite (seq_split_at k _ Hk) in Hin |- *.
  apply loop_reach; [|exact Hin]. rewrite in_seq. lia.
Qed.

Lemma count_retrying max_retries n :
  (length (List.filter (fun a => (Z.of_nat a <? max_retries)%Z) (seq 0 n))
   <= Nat.min n (Z.to_nat max_retries))%nat.
Proof.
  induction n as [|n IH]; [reflexivity|].
  rewrite seq_S, List.filter_app, length_app. cbn [List.filter Nat.add].
  destruct (Z.ltb_spec (Z.of_nat n) max_retries); cbn [length]; lia.
Qed.

Lemma sum_from (acc : Z) (l : list Z) : foldl Z.add acc l = acc + Py.sum l.
Proof.
  unfold Py.sum. revert acc.
  induction l as [|x l IH]; intros acc; cbn [foldl]; [lia|].
  rewrite (IH (acc + x)), (IH (0 + x)). lia.
Qed.

Lemma sum_constant (d : Z) (l : list Z) :
  Forall (eq d) l -> Py.sum l = Z.of_nat (length l) * d.
Proof.
  induction 1 as [|x l <- _ IH]; [reflexivity|].
  unfold Py.sum. cbn [foldl]. rewrite sum_from, IH. cbn [length]. lia.
Qed.

Lemma send_sleeps hook o message user max_retries retry_delay :
  let t := snd (send_slack_message hook o message user max_retries retry_delay) in
  Forall (eq retry_delay) (sleeps t) /\
  (length (sleeps t) <= Z.to_nat max_retries)%nat.
Proof.
  destruct o as [url|]; [|simpl; split; [constructor | lia]].
  rewrite send_slack_message_loop.
  destruct (Py.truthy_str url); [|simpl; split; [constructor | lia]].
  cbv zeta. match goal with |- context [attempt_loop ?h ?u ?b ?m ?d ?l] =>
    destruct (loop_sleeps h u b m d l) as [Hd Hn] end.
  split; [exact Hd|].
  pose proof (count_retrying max_retries (Z.to_nat (max_retries + 1))). lia.
Qed.

End SendSlackMessage.

Section DeliveryClaims.

Import Slack.

Implicit Types (hook : webhook) (url message user : string).
Implicit Types (max_retries retry_delay : Z).

(** X6. A non-200 answer does not end the call: when an attempt is left,
    the next POST follows at once, without a sleep. *)
Lemma non_200_is_followed_by_next_attempt
    hook url message user max_retries retry_delay k code txt :
  let t := snd (send_slack_message hook (Some url) message user
                  max_retries retry_delay) in
  let body := {| text := message; username := user;
                 icon_emoji := ":robot_face:" |} in
  In k (posts t) -> hook k = Response code txt -> code <> 200 ->
  Z.of_nat k < max_retries ->
  exists pre rest,
    t = pre ++ [EvPost k url body; EvLog (LogHttpFailure code txt);
                EvPost (S k) url body] ++ rest.
Proof.
  intros t body Hin Hhook Hcode Hleft. subst t.
  destruct (send_reach _ _ _ _ _ _ _ Hin) as [Hk (pre & -> & _)].
  replace (Z.to_nat (max_retries + 1) - S k)%nat
    with (S (Z.to_nat (max_retries + 1) - S (S k)))%nat by lia.
  cbn [seq attempt_loop]. rewrite Hhook.
  destruct (Z.eqb_spec code 200) as [|_]; [contradiction|].
  unfold emit. cbn [fst snd app]. eexists pre, _. reflexivity.
Qed.

(** C1, on the code.  With the default [max_retries = 3], a webhook that
    answers HTTP 500 to every POST is contacted four times in a row, with
    no sleep, before the call returns [False] at the end of the loop; and
    when the second POST is answered with 200 the call returns [True]. *)
Theorem http_500_is_attempted_again :
  let failing := send_slack_message always_500 (Some example_url) "status"
                   default_username default_max_retries default_retry_delay in
  let recovering := send_slack_message error_500_then_200 (Some example_url)
                      "status" default_username default_max_retries
                      default_retry_delay in
  (fst failing = Return false /\
   posts (snd failing) = [0; 1; 2; 3]%nat /\
   sleeps (snd failing) = [] /\
   logs (snd failing) = replicate 4 (LogHttpFailure 500 "internal error")) /\
  (fst recovering = Return true /\
   posts (snd recovering) = [0; 1]%nat /\
   sleeps (snd recovering) = []).
Proof. vm_compute. repeat split. Qed.

(** C9. Without a webhook URL ([None] or the empty string) the call
    returns [False] at once: no POST, no sleep, no log line. *)
Theorem no_webhook_is_noop hook message user max_retries retry_delay :
  send_slack_message hook None message user max_retries retry_delay
  = (Return false, []) /\
  send_slack_message hook (Some "") message user max_retries retry_delay
  = (Return false, []).
Proof. split; reflexivity. Qed.

(** C10. With a non-empty URL and a negative [max_retries] the range of
    attempts is empty: the call returns [False] with no POST and no
    sleep. *)
Theorem negative_max_retries_is_noop
    hook url message user max_retries retry_delay :
  Py.truthy_str url = true ->
  max_retries < 0 ->
  Py.range (max_retries + 1) = [] /\
  send_slack_message hook (Some url) message user max_retries retry_delay
  = (Return false, []).
Proof.
  intros Hurl Hneg.
  assert (Py.range (max_retries + 1) = []) as Hrange.
  { unfold Py.range. by replace (Z.to_nat (max_retries + 1)) with 0%nat by lia. }
  split; [exact Hrange|].
  unfold send_slack_message. rewrite Hurl, Hrange. reflexivity.
Qed.

Lemma negative_max_retries_is_noop_witness :
  Py.truthy_str example_url = true /\
  -1 < 0 /\
  send_slack_message always_500 (Some example_url) "status" default_username
    (-1) default_retry_delay
  = (Return false, []).
Proof.
  split; [reflexivity|]. split; [lia|].
  apply (negative_max_retries_is_noop always_500 example_url "status"
           default_username (-1) default_retry_delay); [reflexivity | lia].
Defined.





(** C6. A call ends after finitely many actions: its POSTs are those of
    the attempts 0, 1, ... in order, at most [max_retries + 1] of them;
    it sleeps at most [max_retries] times, each time for [retry_delay]
    seconds, so the time spent sleeping is at most
    [max_retries * retry_delay]. *)
Theorem delivery_is_bounded hook webhook_url message user max_retries retry_delay :
  let t := snd (send_slack_message hook webhook_url message user
                  max_retries retry_delay) in
  posts t = seq 0 (length (posts t)) /\
  (length (posts t) <= Z.to_nat (max_retries + 1))%nat /\
  (length (sleeps t) <= Z.to_nat max_retries)%nat /\
  Forall (eq retry_delay) (sleeps t) /\
  (length t <= 4 * Z.to_nat (max_retries + 1))%nat /\
  (0 <= max_retries -> 0 <= retry_delay ->
   Z.of_nat (length (posts t)) <= max_retries + 1 /\
   Z.of_nat (length (sleeps t)) <= max_retries /\
   total_delay t <= max_retries * retry_delay).
Proof.
  intros t.
  destruct (send_posts hook webhook_url message user max_retries retry_delay)
    as [Hseq Hposts].
  destruct (send_sleeps hook webhook_url message user max_retries retry_delay)
    as [Hd Hsleeps].
  fold t in Hseq, Hposts, Hd, Hsleeps.
  split; [exact Hseq|]. split; [exact Hposts|]. split; [exact Hsleeps|].
  split; [exact Hd|]. split.
  - subst t. destruct webhook_url as [url|]; [|simpl; lia].
    rewrite send_slack_message_loop. destruct (Py.truthy_str url); [|simpl; lia].
    etrans; [apply loop_trace_length|]. by rewrite length_seq.
  - intros Hmax Hdelay. split; [lia|]. split; [lia|].
    unfold total_delay. rewrite (sum_constant retry_delay) by exact Hd. nia.
Qed.

Lemma delivery_is_bounded_witness :
  0 <= 2 /\ 0 <= 1 /\
  total_delay (snd (send_slack_message reset_twice_then_200 (Some example_url)
                      "status" default_username 2 1)) <= 2 * 1.
Proof.
  split; [lia|]. split; [lia|].
  apply (delivery_is_bounded reset_twice_then_200 (Some example_url) "status"
           default_username 2 1); lia.
Defined.




End DeliveryClaims.

(* ===================================================================== *)
(** ** Further properties of classification and aggregation *)
(* ===================================================================== *)

Section ClassifierFurther.

Lemma sum_positive_has_positive (l : list Z) :
  0 < Py.sum l -> exists v, In v l /\ 0 < v.
Proof.
  induction l as [|x l IH]; unfold Py.sum; cbn [foldl]; [lia|].
  rewrite sum_from. intros Hpos.
  destruct (Z.ltb_spec 0 x) as [Hx | Hx].
  - exists x. split; [left; reflexivity | exact Hx].
  - destruct IH as (v & Hin & Hv); [lia|]. exists v. split; [right; exact Hin | exact Hv].
Qed.

Lemma sum_nonnegative (l : list Z) :
  Forall (fun v => 0 <= v) l -> 0 <= Py.sum l /\ forall v, In v l -> v <= Py.sum l.
Proof.
  induction 1 as [|x l Hx Hl [IH0 IH]]; [split; [reflexivity | intros v []]|].
  unfold Py.sum. cbn [foldl]. rewrite sum_from. split; [lia|].
  intros v [<- | Hin]; [lia|]. specialize (IH v Hin). lia.
Qed.

(** A node whose capacity sets a quantity against a negative one. *)
Lemma cancelled_capacity_not_gpu_node :
  let info := extract_node_info
                (node_with None
                   (Some (<[ "amd.com/gpu" := "2" ]> {[ "nvidia.com/gpu" := "-3" ]}))) in
  In ("amd.com/gpu", 2) (gpu_breakdown info) /\ is_gpu_node info = false.
Proof. vm_compute. split; [right; left; reflexivity | reflexivity]. Qed.

(** X1. A node is counted as a GPU node only if one of the recognized keys
    was parsed to a positive quantity; when no parsed quantity is negative,
    one positive quantity is also enough. *)
Theorem gpu_node_has_positive_quantity (node : V1Node) :
  let info := extract_node_info node in
  (is_gpu_node info = true ->
   exists k v, In (k, v) (gpu_breakdown info) /\ In k GPU_RESOURCE_KEYS /\ 0 < v) /\
  (Forall (fun kv => 0 <= snd kv) (gpu_breakdown info) ->
   (exists k v, In (k, v) (gpu_breakdown info) /\ 0 < v) ->
   is_gpu_node info = true).
Proof.
  intros info. split.
  - unfold is_gpu_node. intros Hgpu. apply Z.ltb_lt in Hgpu.
    subst info. rewrite gpus_is_sum in Hgpu.
    apply sum_positive_has_positive in Hgpu as (v & Hin & Hv).
    unfold Py.values in Hin. apply in_map_iff in Hin as ([k v'] & Heq & Hin).
    simpl in Heq. subst v'. exists k, v. split; [exact Hin|]. split; [|exact Hv].
    cbn [gpu_breakdown extract_node_info] in Hin. rewrite gpu_capacity_spec in Hin.
    destruct (status node) as [st|]; [|destruct Hin].
    destruct (capacity st) as [cap|]; [|destruct Hin].
    by apply in_omap_parsed in Hin as [Hk _].
  - intros Hnonneg (k & v & Hin & Hv). unfold is_gpu_node. apply Z.ltb_lt.
    subst info. rewrite gpus_is_sum.
    assert (Forall (fun v => 0 <= v)
              (Py.values (gpu_breakdown (extract_node_info node)))) as Hvals.
    { unfold Py.values. apply List.Forall_map. exact Hnonneg. }
    destruct (sum_nonnegative _ Hvals) as [_ Hle].
    specialize (Hle v). unfold Py.values in Hle at 1.
    assert (In v (map snd (gpu_breakdown (extract_node_info node)))) as Hv'
      by (apply in_map_iff; exists (k, v); auto).
    specialize (Hle Hv'). lia.
Qed.

Lemma gpu_node_has_positive_quantity_witness :
  is_gpu_node (extract_node_info node_two_gpus) = true /\
  exists k v,
    In (k, v) (gpu_breakdown (extract_node_info node_two_gpus)) /\
    In k GPU_RESOURCE_KEYS /\ 0 < v.
Proof.
  split; [reflexivity|].
  apply (proj1 (gpu_node_has_positive_quantity node_two_gpus)). reflexivity.
Defined.

(** X2. The breakdown of a node never has more than four entries, and no
    key occurs in it twice. *)
Theorem breakdown_is_small (node : V1Node) :
  (length (gpu_breakdown (extract_node_info node)) <= 4)%nat /\
  List.NoDup (Py.keys (gpu_breakdown (extract_node_info node))).
Proof.
  assert (Py.keys (gpu_breakdown (extract_node_info node))
            `sublist_of` GPU_RESOURCE_KEYS) as Hsub.
  { cbn [gpu_breakdown extract_node_info]. rewrite gpu_capacity_spec.
    destruct (status node) as [st|]; [|apply sublist_nil_l].
    destruct (capacity st) as [cap|]; [|apply sublist_nil_l].
    apply keys_omap_parsed_sublist. }
  split.
  - apply sublist_length in Hsub. unfold Py.keys in Hsub.
    rewrite length_map in Hsub. exact Hsub.
  - apply NoDup_ListNoDup. eapply sublist_NoDup; [|exact Hsub].
    apply NoDup_ListNoDup, GPU_RESOURCE_KEYS_NoDup.
Qed.

End ClassifierFurther.

Section AggregatorFurther.

Implicit Types (nodes : list V1Node) (info : NodeInfo).

(** X3. Listing two batches of nodes one after the other gives the GPU
    nodes, and the ready GPU nodes, of the first batch followed by those
    of the second. *)
Theorem list_gpu_nodes_app nodes1 nodes2 :
  list_gpu_nodes (Some (nodes1 ++ nodes2)) =
  (fst (list_gpu_nodes (Some nodes1)) ++ fst (list_gpu_nodes (Some nodes2)),
   snd (list_gpu_nodes (Some nodes1)) ++ snd (list_gpu_nodes (Some nodes2))).
Proof.
  rewrite !list_gpu_nodes_spec. cbn [Py.or_list fst snd].
  by rewrite map_app, !List.filter_app.
Qed.

(** X4. Every entry of [gpu_nodes] is the classification of a listed node
    and has a positive GPU total; [ready_gpu_nodes] holds exactly the
    entries of [gpu_nodes] that are ready; neither list is longer than the
    one it is drawn from; a missing or empty listing gives two empty
    lists. *)
Theorem list_gpu_nodes_members (items : option (list V1Node)) :
  let gpu_nodes := fst (list_gpu_nodes items) in
  let ready_gpu_nodes := snd (list_gpu_nodes items) in
  (forall info, In info gpu_nodes <->
     0 < gpus info /\ exists node, In node (Py.or_list items) /\
                                   info = extract_node_info node) /\
  (forall info, In info ready_gpu_nodes <-> In info gpu_nodes /\ ready info = true) /\
  (length ready_gpu_nodes <= length gpu_nodes)%nat /\
  (length gpu_nodes <= length (Py.or_list items))%nat /\
  list_gpu_nodes None = ([], []) /\ list_gpu_nodes (Some []) = ([], []).
Proof.
  cbv zeta. rewrite list_gpu_nodes_spec. cbn [fst snd].
  split; [| split; [| split; [| split; [| split; reflexivity]]]].
  - intros info. rewrite List.filter_In, in_map_iff. unfold is_gpu_node.
    rewrite Z.ltb_lt. split.
    + intros [(node & <- & Hin) Hpos]. split; [exact Hpos|]. by exists node.
    + intros [Hpos (node & Hin & ->)]. split; [|exact Hpos]. by exists node.
  - intros info. by rewrite List.filter_In.
  - apply filter_length_le.
  - etrans; [apply filter_length_le|]. by rewrite length_map.
Qed.

End AggregatorFurther.

(* ===================================================================== *)
(** ** Further properties of Slack delivery *)
(* ===================================================================== *)

Section DeliveryLoopFurther.

Import Slack.

Variable hook : webhook.
Variables (url : string) (body : payload).
Variables (max_retries retry_delay : Z).

Local Abbreviation loop := (attempt_loop hook url body max_retries retry_delay).

(** The branches of one iteration, as in the loop body. *)
Ltac branches a :=
  cbn [seq attempt_loop]; unfold on_network_error;
  destruct (hook a) as [code txt | e | e | e | e] eqn:Hhook;
  [ destruct (Z.eqb_spec code 200) as [Hcode | Hcode]
  | destruct (retryable e) eqn:Hretry;
    [ destruct (Z.ltb_spec (Z.of_nat a) max_retries) as [Hleft | Hleft];
      [ destruct (time_sleep retry_delay) as [exc_sleep|] eqn:Hsleep | ] | ]
  | destruct (retryable e) eqn:Hretry;
    [ destruct (Z.ltb_spec (Z.of_nat a) max_retries) as [Hleft | Hleft];
      [ destruct (time_sleep retry_delay) as [exc_sleep|] eqn:Hsleep | ] | ]
  | | ];
  unfold emit; cbn [fst snd app];
  try match goal with
      | |- context [if (0 <? a)%nat then _ else _] => destruct (0 <? a)%nat
      end;
  cbn [app posts sleeps length].

Lemma loop_posts_payload attempts a u b :
  In (EvPost a u b) (snd (loop attempts)) -> u = url /\ b = body /\ In a attempts.
Proof.
  induction attempts as [|a0 rest IH]; [intros []|].
  branches a0; cbn [In].
  all: intros H; repeat (destruct H as [H | H]; try discriminate H).
  all: try (injection H as <- <- <-; by auto).
  all: try (destruct (IH H) as (-> & -> & Hin); by auto).
  all: try destruct H.
Qed.

(** On a range that ends at [max_retries], the trace has fewer sleeps than
    POSTs and does not end with a sleep. *)
Lemma loop_no_trailing_sleep n a :
  n = 0%nat \/ Z.of_nat (a + n) = max_retries + 1 ->
  (n = 0%nat \/
   (length (sleeps (snd (loop (seq a n)))) < length (posts (snd (loop (seq a n)))))%nat) /\
  forall d, last (snd (loop (seq a n))) <> Some (EvSleep d).
Proof.
  revert a. induction n as [|n IH]; intros a Hrange; [split; [by left | done]|].
  destruct Hrange as [|Hrange]; [discriminate|].
  assert (n = 0%nat \/ Z.of_nat (S a + n) = max_retries + 1) as Hrest by lia.
  destruct (IH (S a) Hrest) as [IHn IHlast].
  branches a.
  all: try (split; [right; lia | intros d; simpl; discriminate]).
  - split.
    + right. destruct IHn as [-> | IHn]; [simpl | ]; lia.
    + intros d. change (?x :: ?y :: ?t) with ([x; y] ++ t).
      rewrite last_app. destruct (last _) eqn:Hl; [apply IHlast | simpl; discriminate].
  - assert (n <> 0%nat) as Hn by lia. destruct IHn as [|IHn]; [contradiction|].
    split; [right; lia|].
    intros d. change (?x :: ?y :: ?z :: ?w :: ?t) with ([x; y; z; w] ++ t).
    rewrite last_app. destruct (last _) eqn:Hl; [apply IHlast|].
    apply last_None in Hl. rewrite Hl in IHn. simpl in IHn. lia.
  - assert (n <> 0%nat) as Hn by lia. destruct IHn as [|IHn]; [contradiction|].
    split; [right; lia|].
    intros d. change (?x :: ?y :: ?z :: ?w :: ?t) with ([x; y; z; w] ++ t).
    rewrite last_app. destruct (last _) eqn:Hl; [apply IHlast|].
    apply last_None in Hl. rewrite Hl in IHn. simpl in IHn. lia.
Qed.


End DeliveryLoopFurther.

Section DeliveryFurther.

Import Slack.

Implicit Types (hook : webhook) (url message user : string).
Implicit Types (max_retries retry_delay : Z).

(** X5. Every POST of a call goes to the URL the call was given, which is
    not empty, and carries the same body: the message, the user name and
    the robot icon. *)
Theorem every_post_carries_the_message
    hook webhook_url message user max_retries retry_delay a u b :
  In (EvPost a u b)
     (snd (send_slack_message hook webhook_url message user
             max_retries retry_delay)) ->
  webhook_url = Some u /\ Py.truthy_str u = true /\
  b = {| text := message; username := user; icon_emoji := ":robot_face:" |} /\
  0 <= Z.of_nat a <= max_retries.
Proof.
  destruct webhook_url as [url|]; [|intros []].
  rewrite send_slack_message_loop.
  destruct (Py.truthy_str url) eqn:Hurl; [|intros []].
  intros Hin. apply loop_posts_payload in Hin as (-> & -> & Ha).
  apply in_seq in Ha. split; [reflexivity|]. split; [exact Hurl|].
  split; [reflexivity | lia].
Qed.

Lemma every_post_carries_the_message_witness :
  In (EvPost 1 example_url
        {| text := "status"; username := default_username;
           icon_emoji := ":robot_face:" |})
     (snd (send_slack_message error_500_then_200 (Some example_url) "status"
             default_username default_max_retries default_retry_delay)) /\
  Some example_url = Some example_url /\ 0 <= Z.of_nat 1 <= default_max_retries.
Proof.
  assert (In (EvPost 1 example_url
                {| text := "status"; username := default_username;
                   icon_emoji := ":robot_face:" |})
             (snd (send_slack_message error_500_then_200 (Some example_url)
                     "status" default_username default_max_retries
                     default_retry_delay))) as Hin
    by (vm_compute; tauto).
  split; [exact Hin|].
  destruct (every_post_carries_the_message _ _ _ _ _ _ _ _ _ Hin)
    as (Hurl & _ & _ & Hrange).
  split; [exact Hurl | exact Hrange].
Defined.

Lemma non_200_is_followed_by_next_attempt_witness :
  In 0%nat (posts (snd (send_slack_message always_500 (Some example_url) "status"
                          default_username default_max_retries
                          default_retry_delay))) /\
  always_500 0%nat = Response 500 "internal error" /\
  500 <> 200 /\ Z.of_nat 0 < default_max_retries /\
  exists pre rest,
    snd (send_slack_message always_500 (Some example_url) "status"
           default_username default_max_retries default_retry_delay)
    = pre ++ [EvPost 0 example_url
                {| text := "status"; username := default_username;
                   icon_emoji := ":robot_face:" |};
              EvLog (LogHttpFailure 500 "internal error");
              EvPost 1 example_url
                {| text := "status"; username := default_username;
                   icon_emoji := ":robot_face:" |}] ++ rest.
Proof.
  assert (In 0%nat (posts (snd (send_slack_message always_500 (Some example_url)
                                  "status" default_username default_max_retries
                                  default_retry_delay)))) as Hin
    by (vm_compute; tauto).
  assert (500 <> 200) as Hcode by lia.
  assert (Z.of_nat 0 < default_max_retries) as Hleft by (vm_compute; reflexivity).
  split; [exact Hin|]. split; [reflexivity|]. split; [exact Hcode|].
  split; [exact Hleft|].
  exact (non_200_is_followed_by_next_attempt always_500 example_url "status"
           default_username default_max_retries default_retry_delay
           0%nat 500 "internal error" Hin eq_refl Hcode Hleft).
Defined.





(** X9. A call never ends with a sleep: whenever it sleeps, another POST
    follows, so a call that made a POST made more POSTs than sleeps. *)
Theorem no_trailing_sleep hook webhook_url message user max_retries retry_delay :
  let t := snd (send_slack_message hook webhook_url message user
                  max_retries retry_delay) in
  (forall d, last t <> Some (EvSleep d)) /\
  (t = [] \/ (length (sleeps t) < length (posts t))%nat).
Proof.
  intros t. subst t. destruct webhook_url as [url|]; [|split; [done | by left]].
  rewrite send_slack_message_loop.
  destruct (Py.truthy_str url); [|split; [done | by left]].
  destruct (Z.to_nat (max_retries + 1)) as [|n] eqn:Hn; [split; [done | by left]|].
  destruct (loop_no_trailing_sleep hook url
              {| text := message; username := user; icon_emoji := ":robot_face:" |}
              max_retries retry_delay (S n) 0) as [Hcount Hlast]; [right; lia|].
  split; [exact Hlast|]. right. destruct Hcount as [|Hcount]; [discriminate | exact Hcount].
Qed.

End DeliveryFurther.

(* ===================================================================== *)
(** ** Properties of the notification decision and of the Slack message *)
(* ===================================================================== *)

Section Notification.

Implicit Types (args : Args) (environ : Environ).
Implicit Types (gpu_nodes ready_gpu_nodes : list NodeInfo).

(** X10. A notification is due exactly when a non-empty webhook URL is
    given, on the command line or else in [SLACK_WEBHOOK_URL], and, with
    [--slack-only-on-error], the exit status of the run is not 0. *)
Theorem notification_decision args environ gpu_nodes ready_gpu_nodes :
  should_send_slack_message args environ gpu_nodes ready_gpu_nodes =
  (PyStr.truthy_opt (slack_webhook args)
   || PyStr.truthy_opt (environ !! "SLACK_WEBHOOK_URL"))
  && (negb (slack_only_on_error args)
      || negb (one_shot_status gpu_nodes ready_gpu_nodes =? 0)).
Proof.
  unfold should_send_slack_message, get_slack_webhook_url.
  destruct (PyStr.truthy_opt (slack_webhook args)) eqn:Hflag; cbn [orb].
  - rewrite Hflag. cbn [negb andb].
    destruct (slack_only_on_error args); [|reflexivity].
    by destruct ready_gpu_nodes, gpu_nodes.
  - destruct (PyStr.truthy_opt (environ !! "SLACK_WEBHOOK_URL")); cbn [negb andb];
      [|reflexivity].
    destruct (slack_only_on_error args); [|reflexivity].
    by destruct ready_gpu_nodes, gpu_nodes.
Qed.

Lemma append_assoc (a b c : string) : (a +:+ b) +:+ c = a +:+ (b +:+ c).
Proof.
  induction a as [|x a IH]; [reflexivity|].
  change (String x ((a +:+ b) +:+ c) = String x (a +:+ (b +:+ c))). by rewrite IH.
Qed.

Lemma append_nil_r (a : string) : a +:+ "" = a.
Proof.
  induction a as [|x a IH]; [reflexivity|].
  change (String x (a +:+ "") = String x a). by rewrite IH.
Qed.

Lemma foldl_append {A} (f : A -> string) (acc : string) (l : list A) :
  foldl (fun message x => message +:+ f x) acc l = acc +:+ concat_str (map f l).
Proof.
  revert acc. induction l as [|x l IH]; intros acc; cbn [foldl map concat_str foldr].
  - by rewrite append_nil_r.
  - rewrite IH. fold (concat_str (map f l)). by rewrite append_assoc.
Qed.

(** X11. The Slack message is the headline followed, when there is at
    least one GPU node, by the title of the detail section and one line per
    GPU node in listing order; without GPU nodes it is the headline alone. *)
Theorem slack_message_layout gpu_nodes ready_gpu_nodes :
  format_slack_message gpu_nodes ready_gpu_nodes =
  slack_headline gpu_nodes ready_gpu_nodes
    +:+ match gpu_nodes with
        | [] => ""
        | _ :: _ =>
            PyStr.newline +:+ PyStr.newline +:+ "*노드 상세 정보:*"
              +:+ concat_str (map slack_node_line gpu_nodes)
        end.
Proof.
  unfold format_slack_message, slack_headline.
  destruct (slack_status gpu_nodes ready_gpu_nodes) as [emoji sentence].
  cbn [fst snd]. destruct gpu_nodes as [|node rest]; cbn [Py.truthy_list].
  - by rewrite append_nil_r.
  - rewrite foldl_append. by rewrite !append_assoc.
Qed.

(** X12. The emoji that opens the Slack message tells the exit status of
    the run: a check mark for 0, a warning sign for 3, a cross for 2. *)
Theorem slack_message_emoji_tells_status gpu_nodes ready_gpu_nodes :
  let message := format_slack_message gpu_nodes ready_gpu_nodes in
  (String.prefix "✅" message = true <->
   one_shot_status gpu_nodes ready_gpu_nodes = 0) /\
  (String.prefix "⚠️" message = true <->
   one_shot_status gpu_nodes ready_gpu_nodes = 3) /\
  (String.prefix "❌" message = true <->
   one_shot_status gpu_nodes ready_gpu_nodes = 2).
Proof.
  intros message. subst message.
  unfold format_slack_message, slack_status, one_shot_status.
  destruct ready_gpu_nodes as [|r rs], gpu_nodes as [|g gs];
    cbn [Py.truthy_list fst snd andb negb]; rewrite ?foldl_append;
    (split; [| split]); lazy; split; (reflexivity || discriminate).
Qed.

End Notification.

(* ===================================================================== *)
(** ** Properties of the text table *)
(* ===================================================================== *)

Section Table.

Implicit Types (nodes : list NodeInfo) (node : NodeInfo) (s : string).

Lemma len_append s1 s2 : PyStr.len (s1 +:+ s2) = (PyStr.len s1 + PyStr.len s2)%nat.
Proof.
  induction s1 as [|c s1 IH]; [reflexivity|].
  change (PyStr.len (String c (s1 +:+ s2))
          = (PyStr.len (String c s1) + PyStr.len s2)%nat).
  cbn [PyStr.len]. rewrite IH. lia.
Qed.

Lemma len_times_space n : PyStr.len (PyStr.times " " n) = n.
Proof. induction n as [|n IH]; [reflexivity|]. cbn [PyStr.times]. rewrite len_append, IH. reflexivity. Qed.

Lemma len_times_dash n : PyStr.len (PyStr.times "-" n) = n.
Proof. induction n as [|n IH]; [reflexivity|]. cbn [PyStr.times]. rewrite len_append, IH. reflexivity. Qed.

(** [ljust] never truncates and pads exactly up to the width. *)
Lemma len_ljust s w : PyStr.len (PyStr.ljust s w) = Nat.max (PyStr.len s) w.
Proof. unfold PyStr.ljust. rewrite len_append, len_times_space. lia. Qed.

Lemma name_len_le_table_width nodes node :
  In node nodes -> (PyStr.len (default "" (name node)) <= table_width nodes)%nat.
Proof.
  unfold table_width. intros Hin.
  assert (PyStr.len (default "" (name node))
          <= foldr Nat.max 0 (map (fun n => PyStr.len (default "" (name n))) nodes))%nat;
    [|lia].
  induction nodes as [|n nodes IH]; [destruct Hin|].
  cbn [map foldr]. destruct Hin as [-> | Hin]; [lia|]. specialize (IH Hin). lia.
Qed.

Lemma max_name_len_from_named best nodes :
  all_named nodes = true ->
  max_name_len_from best nodes =
  ret (Nat.max best
         (foldr Nat.max 0%nat (map (fun n => PyStr.len (default "" (name n))) nodes))).
Proof.
  revert best. induction nodes as [|n nodes IH]; intros best Hnamed.
  - cbn. by rewrite Nat.max_0_r.
  - cbn [all_named forallb] in Hnamed. apply andb_true_iff in Hnamed as [Hn Hrest].
    cbn [max_name_len_from map foldr]. unfold name_len.
    destruct (name n) as [s|]; [|discriminate].
    unfold bind, ret. cbn [fst snd app default]. rewrite (IH _ Hrest).
    unfold ret. cbn [fst snd]. by rewrite Nat.max_assoc.
Qed.

Lemma max_name_len_from_unnamed best nodes :
  all_named nodes = false -> max_name_len_from best nodes = raise "TypeError".
Proof.
  revert best. induction nodes as [|n nodes IH]; intros best Hnamed; [discriminate|].
  cbn [all_named forallb] in Hnamed. cbn [max_name_len_from]. unfold name_len.
  destruct (name n) as [s|]; [|reflexivity].
  cbn [andb] in Hnamed. unfold bind, ret. cbn [fst snd app].
  by rewrite (IH _ Hnamed).
Qed.

Lemma table_rows_named w nodes :
  all_named nodes = true ->
  for_each nodes (fun node =>
    padded <- name_ljust node w ;;
    print (OutStdout (padded +:+ "  "
                      +:+ PyStr.ljust (PyStr.str_bool (ready node)) (PyStr.len "READY")
                      +:+ "  "
                      +:+ PyStr.ljust (PyStr.str_int (gpus node)) (PyStr.len "GPU(TOTAL)")
                      +:+ "  " +:+ keys_str node)))
  = (Returns tt, map (fun node => OutStdout (table_row w node)) nodes).
Proof.
  induction nodes as [|n nodes IH]; intros Hnamed; [reflexivity|].
  cbn [all_named forallb] in Hnamed. apply andb_true_iff in Hnamed as [Hn Hrest].
  cbn [for_each map]. rewrite (IH Hrest). unfold name_ljust, table_row.
  destruct (name n) as [s|]; [|discriminate]. reflexivity.
Qed.

(** [print_table] on a list that is not empty. *)
Lemma print_table_nonempty node rest :
  print_table (node :: rest) =
  if all_named (node :: rest) then
    (Returns tt,
     map OutStdout (table_head (table_width (node :: rest))
                      ++ map (table_row (table_width (node :: rest))) (node :: rest)))
  else (Raises "TypeError", []).
Proof.
  destruct (all_named (node :: rest)) eqn:Hnamed.
  - assert (max_name_len (node :: rest) =
            ret (foldr Nat.max 0%nat
                   (map (fun n => PyStr.len (default "" (name n))) (node :: rest))))
      as Hmax.
    { cbn [all_named forallb] in Hnamed.
      apply andb_true_iff in Hnamed as [Hn Hrest].
      cbn [map foldr]. unfold max_name_len, name_len.
      destruct (name node) as [s|]; [|discriminate].
      unfold bind, ret. cbn [fst snd app default].
      rewrite (max_name_len_from_named _ _ Hrest). reflexivity. }
    unfold print_table. cbn [Py.truthy_list negb]. rewrite Hmax.
    unfold bind at 1. unfold ret at 1. cbn [fst snd app].
    fold (table_width (node :: rest)).
    rewrite (table_rows_named _ _ Hnamed). rewrite map_app, map_map. reflexivity.
  - unfold print_table. cbn [Py.truthy_list negb].
    assert (max_name_len (node :: rest) = raise "TypeError") as ->; [|reflexivity].
    unfold max_name_len, name_len. cbn [all_named forallb] in Hnamed.
    destruct (name node) as [s|]; [|reflexivity].
    cbn [andb] in Hnamed. unfold bind, ret. cbn [fst snd app].
    by rewrite (max_name_len_from_unnamed _ _ Hnamed).
Qed.

(** X13. [print_table] prints one line saying that there is no GPU node
    when the list is empty.  Otherwise, when every node has a name, it
    prints a title row, a rule and one row per node, in order, that is two
    lines more than there are nodes; when a node has no name it raises
    [TypeError] before printing anything. *)
Theorem print_table_outcome (nodes : list NodeInfo) :
  print_table nodes =
  match nodes with
  | [] => (Returns tt, [OutStdout "GPU 노드가 존재하지 않습니다."])
  | _ :: _ =>
      if all_named nodes then
        (Returns tt,
         map OutStdout (table_head (table_width nodes)
                          ++ map (table_row (table_width nodes)) nodes))
      else (Raises "TypeError", [])
  end /\
  (nodes <> [] -> all_named nodes = true ->
   length (snd (print_table nodes)) = (2 + length nodes)%nat).
Proof.
  split.
  - destruct nodes as [|node rest]; [reflexivity | apply print_table_nonempty].
  - intros Hne Hnamed. destruct nodes as [|node rest]; [contradiction|].
    rewrite print_table_nonempty, Hnamed. cbn [snd].
    rewrite length_map, length_app, length_map. reflexivity.
Qed.

Lemma print_table_outcome_witness :
  [extract_node_info node_two_gpus] <> [] /\
  all_named [extract_node_info node_two_gpus] = true /\
  length (snd (print_table [extract_node_info node_two_gpus])) = (2 + 1)%nat.
Proof.
  assert ([extract_node_info node_two_gpus] <> []) as Hne by discriminate.
  split; [exact Hne|]. split; [reflexivity|].
  exact (proj2 (print_table_outcome [extract_node_info node_two_gpus]) Hne eq_refl).
Defined.

Lemma longest_is_attained {A} (f : A -> nat) (l : list A) :
  foldr Nat.max 0%nat (map f l) = 0%nat \/
  exists x, In x l /\ f x = foldr Nat.max 0%nat (map f l).
Proof.
  induction l as [|x l IH]; [by left|]. cbn [map foldr].
  destruct (Nat.max_spec (f x) (foldr Nat.max 0%nat (map f l))) as [[Hlt ->] | [Hle ->]].
  - destruct IH as [H0 | (y & Hy & Hfy)]; [left; exact H0 | right].
    exists y. split; [right; exact Hy | exact Hfy].
  - right. exists x. split; [left; reflexivity | reflexivity].
Qed.

Lemma all_named_In (nodes : list NodeInfo) node :
  all_named nodes = true -> In node nodes -> exists s, name node = Some s.
Proof.
  unfold all_named. intros Hall Hin.
  pose proof (proj1 (forallb_forall _ _) Hall node Hin) as Hnode.
  cbn beta in Hnode. destruct (name node) as [s|]; [by exists s | discriminate Hnode].
Qed.

(** X14. The table that [print_table] prints for a non-empty list of named
    nodes is aligned.  Its NAME column is [w] characters wide on the title
    row, on the rule and on every node row, where [w] is the length of the
    longest name, and 4 if no name is longer; each row starts with the
    full name, padded with spaces.  The READY column, two spaces further,
    is 5 wide on every row, so that the GPU(TOTAL) column starts at the
    same position on every line. *)
Theorem table_columns_align (nodes : list NodeInfo) :
  nodes <> [] -> all_named nodes = true ->
  exists w title rule rows,
    snd (print_table nodes) =
      OutStdout title :: OutStdout rule :: map OutStdout rows /\
    (4 <= w)%nat /\
    (forall node s, In node nodes -> name node = Some s -> (PyStr.len s <= w)%nat) /\
    (w = 4%nat \/
     exists node s, In node nodes /\ name node = Some s /\ PyStr.len s = w) /\
    title = PyStr.ljust "NAME" w +:+ "  READY  GPU(TOTAL)  GPU(KEYS)" /\
    PyStr.len (PyStr.ljust "NAME" w) = w /\
    rule = PyStr.times "-" w +:+ "  -----  ----------  ---------" /\
    PyStr.len (PyStr.times "-" w) = w /\
    Forall2
      (fun node row =>
         exists s name_column ready_column,
           name node = Some s /\
           row = name_column +:+ "  " +:+ ready_column +:+ "  "
                   +:+ PyStr.ljust (PyStr.str_int (gpus node)) 10 +:+ "  "
                   +:+ keys_str node /\
           name_column = s +:+ PyStr.times " " (w - PyStr.len s) /\
           PyStr.len name_column = w /\
           ready_column = PyStr.ljust (PyStr.str_bool (ready node)) 5 /\
           PyStr.len ready_column = 5%nat)
      nodes rows.
Proof.
  intros Hne Hnamed. destruct nodes as [|node0 rest]; [contradiction|].
  set (nodes := node0 :: rest) in *. clear Hne.
  exists (table_width nodes),
         (PyStr.ljust "NAME" (table_width nodes) +:+ "  READY  GPU(TOTAL)  GPU(KEYS)"),
         (PyStr.times "-" (table_width nodes) +:+ "  -----  ----------  ---------"),
         (map (table_row (table_width nodes)) nodes).
  assert (4 <= table_width nodes)%nat as Hw.
  { unfold table_width. change (PyStr.len "NAME") with 4%nat. lia. }
  assert (forall node s, In node nodes -> name node = Some s ->
                         (PyStr.len s <= table_width nodes)%nat) as Hfit.
  { intros node s Hin Hs. pose proof (name_len_le_table_width nodes node Hin) as Hle.
    rewrite Hs in Hle. exact Hle. }
  split; [| split; [exact Hw | split; [exact Hfit | split; [| split; [reflexivity |
           split; [| split; [reflexivity | split; [apply len_times_dash|]]]]]]]].
  - subst nodes. rewrite print_table_nonempty, Hnamed. reflexivity.
  - unfold table_width. change (PyStr.len "NAME") with 4%nat.
    destruct (longest_is_attained (fun n => PyStr.len (default "" (name n))) nodes)
      as [H0 | (node & Hin & Hlen)].
    + left. rewrite H0. reflexivity.
    + destruct (Nat.max_spec 4 (foldr Nat.max 0%nat
                  (map (fun n => PyStr.len (default "" (name n))) nodes)))
        as [[Hlt ->] | [Hle ->]]; [right | by left].
      destruct (all_named_In nodes node Hnamed Hin) as [s Hs].
      exists node, s. split; [exact Hin|]. split; [exact Hs|].
      rewrite Hs in Hlen. exact Hlen.
  - rewrite len_ljust. change (PyStr.len "NAME") with 4%nat. lia.
  - change (map (table_row (table_width nodes)) nodes)
      with (table_row (table_width nodes) <$> nodes).
    apply Forall2_fmap_r, Forall_Forall2_diag, Forall_forall.
    intros node Hin%list_elem_of_In.
    destruct (all_named_In nodes node Hnamed Hin) as [s Hs].
    exists s, (PyStr.ljust s (table_width nodes)),
           (PyStr.ljust (PyStr.str_bool (ready node)) 5).
    split; [exact Hs|]. split; [unfold table_row; by rewrite Hs|].
    split; [reflexivity|]. split.
    + rewrite len_ljust. specialize (Hfit node s Hin Hs). lia.
    + split; [reflexivity|]. rewrite len_ljust. by destruct (ready node).
Qed.

Lemma table_columns_align_witness :
  [extract_node_info node_two_gpus] <> [] /\
  all_named [extract_node_info node_two_gpus] = true /\
  exists w title rule rows,
    snd (print_table [extract_node_info node_two_gpus]) =
      OutStdout title :: OutStdout rule :: map OutStdout rows /\
    (4 <= w)%nat.
Proof.
  assert ([extract_node_info node_two_gpus] <> []) as Hne by discriminate.
  split; [exact Hne|]. split; [reflexivity|].
  destruct (table_columns_align [extract_node_info node_two_gpus] Hne eq_refl)
    as (w & title & rule & rows & Hout & Hw & _).
  exists w, title, rule, rows. split; [exact Hout | exact Hw].
Defined.

End Table.

(* ===================================================================== *)
(** ** Properties of a run *)
(* ===================================================================== *)

Section Run.

Implicit Types (args : Args) (environ : Environ) (api : listing).
Implicit Types (hook : Slack.webhook) (out : list output).

Lemma slack_events_app out1 out2 :
  slack_events (out1 ++ out2) = slack_events out1 ++ slack_events out2.
Proof. unfold slack_events. apply omap_app. Qed.

Lemma slack_events_stdout line out :
  slack_events (OutStdout line :: out) = slack_events out.
Proof. reflexivity. Qed.

Lemma slack_events_of_trace (t : list Slack.event) : slack_events (map OutSlack t) = t.
Proof. induction t as [|ev t IH]; [reflexivity|]. cbn. by rewrite <- IH at 2. Qed.

Lemma stdout_of_trace (t : list Slack.event) :
  List.filter on_stdout (map OutSlack t) = [].
Proof. induction t as [|ev t IH]; [reflexivity | exact IH]. Qed.

Lemma in_slack_events ev out : In (OutSlack ev) out <-> In ev (slack_events out).
Proof.
  induction out as [|o out IH]; [reflexivity|].
  destruct o as [ev'| | | | |]; unfold slack_events; cbn [omap In];
    fold (slack_events out).
  - split; (intros [H | H]; [left; congruence | right; by apply IH]).
  - split; [intros [H | H]; [discriminate | by apply IH] | intros H; right; by apply IH].
  - split; [intros [H | H]; [discriminate | by apply IH] | intros H; right; by apply IH].
  - split; [intros [H | H]; [discriminate | by apply IH] | intros H; right; by apply IH].
  - split; [intros [H | H]; [discriminate | by apply IH] | intros H; right; by apply IH].
  - split; [intros [H | H]; [discriminate | by apply IH] | intros H; right; by apply IH].
Qed.

(** What the notification step amounts to: nothing when no notification is
    due, otherwise the Slack call on the formatted message, followed in
    text mode by one line telling whether it succeeded. *)
Lemma notify_spec args environ hook gpu_nodes ready_gpu_nodes :
  let call := Slack.send_slack_message hook
                (get_slack_webhook_url args environ)
                (format_slack_message gpu_nodes ready_gpu_nodes)
                (slack_username args) (slack_retry_count args)
                (slack_retry_delay args) in
  notify args environ hook gpu_nodes ready_gpu_nodes =
  if should_send_slack_message args environ gpu_nodes ready_gpu_nodes then
    match fst call with
    | Slack.Return success =>
        (Returns tt,
         map OutSlack (snd call)
           ++ (if json args then []
               else if success
                    then [OutStdout "✅ 슬랙 메시지를 성공적으로 전송했습니다."]
                    else [OutStderr "❌ 슬랙 메시지 전송에 실패했습니다."]))
    | Slack.Raise exc => (Raises exc, map OutSlack (snd call))
    end
  else (Returns tt, []).
Proof.
  intros call. unfold notify.
  destruct (should_send_slack_message args environ gpu_nodes ready_gpu_nodes)
    eqn:Hsend; [|reflexivity].
  assert (PyStr.truthy_opt (get_slack_webhook_url args environ) = true) as ->.
  { unfold should_send_slack_message in Hsend.
    by destruct (PyStr.truthy_opt (get_slack_webhook_url args environ)). }
  unfold send_slack_message_io, bind. fold call. cbn [fst snd].
  destruct (fst call) as [[|]|exc]; [| |reflexivity];
    destruct (json args); reflexivity.
Qed.

Lemma one_shot_listed args environ items hook :
  one_shot args environ (Listed items) hook =
  (notify args environ hook (fst (list_gpu_nodes items)) (snd (list_gpu_nodes items)) ;;;
   (if json args then
      print (OutJson (length (fst (list_gpu_nodes items)))
                     (length (snd (list_gpu_nodes items)))
                     (fst (list_gpu_nodes items)))
    else
      print (OutStdout (summary_line (fst (list_gpu_nodes items))
                                     (snd (list_gpu_nodes items)))) ;;;
      print_table (fst (list_gpu_nodes items))) ;;;
   ret (one_shot_status (fst (list_gpu_nodes items)) (snd (list_gpu_nodes items)))).
Proof.
  unfold one_shot, list_gpu_nodes_of. unfold bind at 1. unfold ret at 1.
  cbn [fst snd app]. by destruct (notify _ _ _ _ _ ;;; _) as [r out].
Qed.

Lemma bind_returns {A B} (m : io A) (k : A -> io B) (b : B) :
  fst (bind m k) = Returns b <->
  exists a, fst m = Returns a /\ fst (k a) = Returns b.
Proof.
  unfold bind. destruct (fst m) as [a|exc]; cbn [fst].
  - split; [intros H; by exists a | by intros (a' & [= <-] & H)].
  - split; [discriminate | by intros (a & Ha & _)].
Qed.



Lemma send_returns hook o (message user : string) (max_retries retry_delay : Z) :
  Slack.time_sleep retry_delay = None ->
  exists b, fst (Slack.send_slack_message hook o message user max_retries retry_delay)
            = Slack.Return b.
Proof.
  intros Hdelay. destruct o as [url|]; [|by exists false].
  rewrite send_slack_message_loop. destruct (Py.truthy_str url); [|by exists false].
  by apply loop_returns.
Qed.

Lemma send_posts_payload hook o (message user : string) (max_retries retry_delay : Z)
    a u b :
  In (Slack.EvPost a u b)
     (snd (Slack.send_slack_message hook o message user max_retries retry_delay)) ->
  o = Some u /\ Py.truthy_str u = true /\
  b = {| Slack.text := message; Slack.username := user;
         Slack.icon_emoji := ":robot_face:" |} /\
  0 <= Z.of_nat a <= max_retries.
Proof.
  destruct o as [url|]; [|intros []].
  rewrite send_slack_message_loop.
  destruct (Py.truthy_str url) eqn:Hurl; [|intros []].
  intros Hin. apply loop_posts_payload in Hin as (-> & -> & Ha).
  apply in_seq in Ha. split; [reflexivity|]. split; [exact Hurl|].
  split; [reflexivity | lia].
Qed.

Lemma load_kube_config_spec args environ path_exists loader :
  exists source,
    load_kube_config args environ path_exists loader =
    match loader source with
    | Some exc => (Raises exc, [])
    | None => (Returns tt, [])
    end.
Proof.
  unfold load_kube_config. destruct (kubeconfig args) as [[|c p]|].
  2: by exists (ConfigFile (String c p)).
  all: destruct (environ !! "KUBECONFIG") as [[|c p]|]; try by exists DefaultConfig.
  all: destruct (path_exists (String c p));
    [by exists (ConfigFile (String c p)) | by exists DefaultConfig].
Qed.

Lemma load_kube_config_silent args environ path_exists loader :
  snd (load_kube_config args environ path_exists loader) = [].
Proof.
  destruct (load_kube_config_spec args environ path_exists loader) as [source ->].
  by destruct (loader source).
Qed.

Lemma print_table_no_slack (nodes : list NodeInfo) :
  slack_events (snd (print_table nodes)) = [].
Proof.
  destruct nodes as [|node rest]; [reflexivity|]. rewrite print_table_nonempty.
  destruct (all_named (node :: rest)); [|reflexivity]. cbn [snd].
  generalize (table_head (table_width (node :: rest))
                ++ map (table_row (table_width (node :: rest))) (node :: rest)).
  intros lines. induction lines as [|l lines IH]; [reflexivity | exact IH].
Qed.

Lemma notify_slack_events args environ hook (gpu_nodes ready_gpu_nodes : list NodeInfo) :
  slack_events (snd (notify args environ hook gpu_nodes ready_gpu_nodes)) =
  if should_send_slack_message args environ gpu_nodes ready_gpu_nodes
  then snd (Slack.send_slack_message hook (get_slack_webhook_url args environ)
              (format_slack_message gpu_nodes ready_gpu_nodes)
              (slack_username args) (slack_retry_count args)
              (slack_retry_delay args))
  else [].
Proof.
  rewrite notify_spec.
  destruct (should_send_slack_message args environ gpu_nodes ready_gpu_nodes);
    [|reflexivity].
  destruct (fst (Slack.send_slack_message _ _ _ _ _ _)) as [success|exc]; cbn [snd].
  - rewrite slack_events_app, slack_events_of_trace.
    destruct (json args); [|destruct success]; cbn; by rewrite app_nil_r.
  - apply slack_events_of_trace.
Qed.

Lemma notify_stdout_json args environ hook (gpu_nodes ready_gpu_nodes : list NodeInfo) :
  json args = true ->
  List.filter on_stdout (snd (notify args environ hook gpu_nodes ready_gpu_nodes)) = [].
Proof.
  intros Hjson. rewrite notify_spec, Hjson.
  destruct (should_send_slack_message args environ gpu_nodes ready_gpu_nodes);
    [|reflexivity].
  destruct (fst (Slack.send_slack_message _ _ _ _ _ _)) as [success|exc]; cbn [snd].
  - by rewrite app_nil_r, stdout_of_trace.
  - apply stdout_of_trace.
Qed.


(** [one_shot] on a successful listing, step by step. *)
Lemma one_shot_result args environ items hook :
  let gpu_nodes := fst (list_gpu_nodes items) in
  let ready_gpu_nodes := snd (list_gpu_nodes items) in
  let noted := notify args environ hook gpu_nodes ready_gpu_nodes in
  one_shot args environ (Listed items) hook =
  match fst noted with
  | Raises exc => (Raises exc, snd noted)
  | Returns _ =>
      if json args then
        (Returns (one_shot_status gpu_nodes ready_gpu_nodes),
         snd noted ++ [OutJson (length gpu_nodes) (length ready_gpu_nodes) gpu_nodes])
      else
        match fst (print_table gpu_nodes) with
        | Returns _ =>
            (Returns (one_shot_status gpu_nodes ready_gpu_nodes),
             snd noted ++ OutStdout (summary_line gpu_nodes ready_gpu_nodes)
               :: snd (print_table gpu_nodes))
        | Raises exc =>
            (Raises exc,
             snd noted ++ OutStdout (summary_line gpu_nodes ready_gpu_nodes)
               :: snd (print_table gpu_nodes))
        end
  end.
Proof.
  intros gpu_nodes ready_gpu_nodes noted. rewrite one_shot_listed.
  fold gpu_nodes ready_gpu_nodes noted. unfold bind at 1.
  destruct (fst noted) as [[]|exc]; [|reflexivity].
  destruct (json args).
  - unfold bind, print, ret. cbn [fst snd app]. reflexivity.
  - unfold bind, print, ret. cbn [fst snd app].
    destruct (fst (print_table gpu_nodes)) as [[]|exc]; cbn [fst snd app];
      by rewrite ?app_nil_r.
Qed.





Lemma main_body args environ path_exists loader api hook :
  (load_kube_config args environ path_exists loader ;;; one_shot args environ api hook)
  = match fst (load_kube_config args environ path_exists loader) with
    | Returns _ => one_shot args environ api hook
    | Raises exc => (Raises exc, [])
    end.
Proof.
  unfold bind. rewrite load_kube_config_silent.
  destruct (fst (load_kube_config _ _ _ _)); [|reflexivity].
  by destruct (one_shot args environ api hook).
Qed.

(** X16. With [--json], a run writes exactly one JSON document on standard
    output, whatever happens: the report, with the two counts and the GPU
    nodes, when the run ends normally, then with the status of the listing
    as exit code; or an error document, with exit code 1. *)
Theorem json_mode_single_document args environ path_exists loader api hook :
  json args = true ->
  let run := main args environ path_exists loader api hook in
  (exists items,
      api = Listed items /\
      List.filter on_stdout (snd run) =
        [OutJson (length (fst (list_gpu_nodes items)))
                 (length (snd (list_gpu_nodes items)))
                 (fst (list_gpu_nodes items))] /\
      fst run = one_shot_status (fst (list_gpu_nodes items))
                                (snd (list_gpu_nodes items))) \/
  (exists exc, List.filter on_stdout (snd run) = [OutJsonError exc] /\ fst run = 1).
Proof.
  intros Hjson run. subst run. unfold main. rewrite main_body, Hjson.
  destruct (fst (load_kube_config _ _ _ _)) as [[]|exc].
  2: { right. exists exc. by split. }
  destruct api as [items|exc].
  2: { right. exists exc. by split. }
  rewrite one_shot_result, Hjson.
  pose proof (notify_stdout_json args environ hook (fst (list_gpu_nodes items))
                (snd (list_gpu_nodes items)) Hjson) as Hquiet.
  destruct (fst (notify _ _ _ _ _)) as [[]|exc]; cbn [fst snd].
  - left. exists items. split; [reflexivity|]. split; [|reflexivity].
    by rewrite List.filter_app, Hquiet.
  - right. exists exc. split; [|reflexivity].
    by rewrite List.filter_app, Hquiet.
Qed.

Lemma json_mode_single_document_witness :
  json {| kubeconfig := None; json := true; slack_webhook := None;
          slack_username := Slack.default_username; slack_only_on_error := false;
          slack_retry_count := 3; slack_retry_delay := 30 |} = true /\
  List.filter on_stdout
    (snd (main {| kubeconfig := None; json := true; slack_webhook := None;
                  slack_username := Slack.default_username;
                  slack_only_on_error := false;
                  slack_retry_count := 3; slack_retry_delay := 30 |}
            ∅ (fun _ => false) (fun _ => None)
            (ListingFails "ApiException") always_200))
  = [OutJsonError "ApiException"].
Proof.
  split; [reflexivity|].
  destruct (json_mode_single_document
              {| kubeconfig := None; json := true; slack_webhook := None;
                 slack_username := Slack.default_username;
                 slack_only_on_error := false;
                 slack_retry_count := 3; slack_retry_delay := 30 |}
              ∅ (fun _ => false) (fun _ => None)
              (ListingFails "ApiException") always_200 eq_refl)
    as [(items & Habs & _) | (exc & Hout & _)]; [discriminate|].
  rewrite Hout. vm_compute in Hout. by injection Hout as <-.
Defined.

(** X17. The Slack activity of a run is that of one call of
    [send_slack_message], made with the resolved URL, the formatted message
    of the listing and the configured user name, retry count and delay,
    when the configuration was loaded, the listing succeeded and a
    notification is due; otherwise there is none.  In particular, with
    [--slack-only-on-error], a run that exits with status 0 has not
    contacted the webhook. *)
Theorem slack_activity_of_a_run args environ path_exists loader api hook :
  let run := main args environ path_exists loader api hook in
  slack_events (snd run) =
    match fst (load_kube_config args environ path_exists loader), api with
    | Returns _, Listed items =>
        if should_send_slack_message args environ
             (fst (list_gpu_nodes items)) (snd (list_gpu_nodes items))
        then snd (Slack.send_slack_message hook
                    (get_slack_webhook_url args environ)
                    (format_slack_message (fst (list_gpu_nodes items))
                                          (snd (list_gpu_nodes items)))
                    (slack_username args) (slack_retry_count args)
                    (slack_retry_delay args))
        else []
    | _, _ => []
    end /\
  (slack_only_on_error args = true -> fst run = 0 -> slack_events (snd run) = []).
Proof.
  intros run.
  assert (slack_events (snd run) =
          match fst (load_kube_config args environ path_exists loader), api with
          | Returns _, Listed items =>
              slack_events (snd (notify args environ hook (fst (list_gpu_nodes items))
                                   (snd (list_gpu_nodes items))))
          | _, _ => []
          end) as Hev.
  { subst run. unfold main. rewrite main_body.
    destruct (fst (load_kube_config _ _ _ _)) as [[]|exc].
    2: { cbn [fst snd app]. by destruct (json args). }
    destruct api as [items|exc].
    2: { cbn [fst snd app]. by destruct (json args). }
    rewrite one_shot_result.
    destruct (fst (notify _ _ _ _ _)) as [[]|exc]; cbn [fst snd].
    - destruct (json args); cbn [fst snd].
      + by rewrite slack_events_app, app_nil_r.
      + destruct (fst (print_table _)); cbn [fst snd].
        * rewrite slack_events_app, slack_events_stdout.
          by rewrite print_table_no_slack, app_nil_r.
        * rewrite !slack_events_app, slack_events_stdout, print_table_no_slack.
          cbn. by rewrite !app_nil_r.
    - rewrite slack_events_app. destruct (json args); cbn; by rewrite app_nil_r. }
  split.
  - rewrite Hev. destruct (fst (load_kube_config _ _ _ _)); [|reflexivity].
    destruct api as [items|]; [|reflexivity]. apply notify_slack_events.
  - intros Honly Hzero. rewrite Hev.
    destruct (fst (load_kube_config _ _ _ _)) as [[]|exc] eqn:Hload; [|reflexivity].
    destruct api as [items|]; [|reflexivity]. rewrite notify_slack_events.
    assert (one_shot_status (fst (list_gpu_nodes items)) (snd (list_gpu_nodes items)) = 0)
      as Hstatus.
    { subst run. unfold main in Hzero. rewrite main_body, Hload, one_shot_result in Hzero.
      destruct (fst (notify _ _ _ _ _)); [|discriminate].
      destruct (json args); [exact Hzero|].
      destruct (fst (print_table _)); [exact Hzero | discriminate]. }
    unfold should_send_slack_message. rewrite Honly.
    destruct (PyStr.truthy_opt (get_slack_webhook_url args environ)); [|reflexivity].
    cbn [negb]. destruct (snd (list_gpu_nodes items)) as [|info rest]; [|reflexivity].
    by destruct (fst (list_gpu_nodes items)).
Qed.

Lemma slack_activity_of_a_run_witness :
  slack_only_on_error
    {| kubeconfig := None; json := false; slack_webhook := Some Slack.example_url;
       slack_username := Slack.default_username; slack_only_on_error := true;
       slack_retry_count := 3; slack_retry_delay := 30 |} = true /\
  fst (main {| kubeconfig := None; json := false;
               slack_webhook := Some Slack.example_url;
               slack_username := Slack.default_username;
               slack_only_on_error := true;
               slack_retry_count := 3; slack_retry_delay := 30 |}
         ∅ (fun _ => false) (fun _ => None)
         (Listed (Some [node_two_gpus])) always_200) = 0 /\
  slack_events
    (snd (main {| kubeconfig := None; json := false;
                  slack_webhook := Some Slack.example_url;
                  slack_username := Slack.default_username;
                  slack_only_on_error := true;
                  slack_retry_count := 3; slack_retry_delay := 30 |}
            ∅ (fun _ => false) (fun _ => None)
            (Listed (Some [node_two_gpus])) always_200)) = [].
Proof.
  split; [reflexivity|]. split; [reflexivity|].
  apply (proj2 (slack_activity_of_a_run
                  {| kubeconfig := None; json := false;
                     slack_webhook := Some Slack.example_url;
                     slack_username := Slack.default_username;
                     slack_only_on_error := true;
                     slack_retry_count := 3; slack_retry_delay := 30 |}
                  ∅ (fun _ => false) (fun _ => None)
                  (Listed (Some [node_two_gpus])) always_200));
    reflexivity.
Defined.



(** X19. When loading the configuration or listing the nodes raises, the
    run ends with exit code 1 and writes only the error report: a JSON
    error document with [--json], the error line and the traceback on
    standard error otherwise.  Nothing is sent to Slack. *)
Theorem failed_run_reports_error args environ path_exists loader api hook exc :
  fst (load_kube_config args environ path_exists loader) = Raises exc \/
  (fst (load_kube_config args environ path_exists loader) = Returns tt /\
   api = ListingFails exc) ->
  main args environ path_exists loader api hook =
  (1, if json args then [OutJsonError exc]
      else [OutStderr ("에러: " +:+ exc); OutTraceback]).
Proof.
  intros [Hload | [Hload ->]]; unfold main; rewrite main_body, Hload; reflexivity.
Qed.

Lemma failed_run_reports_error_witness :
  fst (load_kube_config example_args ∅ (fun _ => false) (fun _ => None)) = Returns tt /\
  main example_args ∅ (fun _ => false) (fun _ => None)
    (ListingFails "ApiException") always_200
  = (1, [OutStderr ("에러: " +:+ "ApiException"); OutTraceback]).
Proof.
  assert (fst (load_kube_config example_args ∅ (fun _ => false) (fun _ => None))
          = Returns tt) as Hload by (vm_compute; reflexivity).
  split; [exact Hload|].
  apply (failed_run_reports_error example_args ∅ (fun _ => false) (fun _ => None)
           (ListingFails "ApiException") always_200 "ApiException").
  right. split; [exact Hload | reflexivity].
Defined.

End Run.
